(** * Capability-probing client for the Pendo API: a shallow embedding

    The Python sources embedded here are
    - [examples/write_access_analyzer.py]   (class WriteAccessAnalyzer, the
      read-only "safety gate" and its security report),
    - [examples/real_pendo_api_explorer.py] (class RealPendoAPIExplorer, the
      transport call, the host x endpoint probe loop and its report),
    - [examples/access_capabilities_investigator.py] (class
      PendoAccessInvestigator, the permission classifier and its report).

    Python objects returned by [response.json()] and the dictionaries the
    scripts build are values of [pyvalue]; an instance's mutable attributes
    are a record; the outside world (the network, the clock, the [logging]
    module) is an explicit [world] threaded through every method.  A method
    is a function [St * world -> result A * (St * world)]: it may raise, and
    what it did to the state before raising stays done, as in Python.
    Calls to [print] are left out, except where formatting the printed text
    can itself raise.  Strings are byte strings. *)

From Stdlib Require Import ZArith QArith List String Ascii Bool Lia.
From Stdlib Require Import DecimalString.
From Stdlib Require Import Floats.
Import ListNotations.

Local Open Scope string_scope.
Local Open Scope Z_scope.

(** ** Python values *)

Local Unset Elimination Schemes.

Inductive pyvalue : Type :=
| PyNone
| PyBool (b : bool)
| PyInt (z : Z)
| PyFloat (repr : string)
| PyStr (s : string)
| PyList (items : list pyvalue)
| PyDict (items : list (string * pyvalue)).

Local Set Elimination Schemes.



(** [isinstance(x, list)] *)
Definition isinstance_list (v : pyvalue) : bool :=
  match v with PyList _ => true | _ => false end.

(** Truth value of an object, as tested by [if x:]. *)
Definition truthy (v : pyvalue) : bool :=
  match v with
  | PyNone => false
  | PyBool b => b
  | PyInt z => negb (z =? 0)
  | PyFloat r => negb ((r =? "0.0") || (r =? "-0.0"))%string
  | PyStr s => negb (s =? "")%string
  | PyList l => match l with [] => false | _ => true end
  | PyDict d => match d with [] => false | _ => true end
  end.

(** ** Strings *)

Definition upper_ascii (c : ascii) : ascii :=
  let n := nat_of_ascii c in
  if ((97 <=? n) && (n <=? 122))%nat then ascii_of_nat (n - 32) else c.

Definition lower_ascii (c : ascii) : ascii :=
  let n := nat_of_ascii c in
  if ((65 <=? n) && (n <=? 90))%nat then ascii_of_nat (n + 32) else c.

(** [s.upper()] *)
Fixpoint upper (s : string) : string :=
  match s with
  | EmptyString => EmptyString
  | String c s' => String (upper_ascii c) (upper s')
  end.

(** [s.lower()] *)
Fixpoint lower (s : string) : string :=
  match s with
  | EmptyString => EmptyString
  | String c s' => String (lower_ascii c) (lower s')
  end.

(** [sub in s] for strings *)
Fixpoint contains (sub s : string) : bool :=
  prefix sub s ||
  match s with
  | EmptyString => false
  | String _ s' => contains sub s'
  end.

(** [x in l] for a list of strings *)
Definition str_in (x : string) (l : list string) : bool :=
  existsb (String.eqb x) l.

(** [s[:n]] *)
Definition take (n : nat) (s : string) : string := substring 0 n s.

(** [str(z)] for an integer *)
Definition str_of_Z (z : Z) : string := NilZero.string_of_int (Z.to_int z).

(** [str(l)] for a list of strings without quotes or escapes in them *)
Definition repr_str_list (l : list string) : string :=
  "[" ++ String.concat ", " (map (fun s => "'" ++ s ++ "'") l) ++ "]".

(** ** Dictionaries with string keys, in insertion order *)

Definition pydict := list (string * pyvalue).

(** [d.get(k)] *)
Fixpoint dict_get (k : string) (d : pydict) : option pyvalue :=
  match d with
  | [] => None
  | (k', v) :: d' => if (k' =? k)%string then Some v else dict_get k d'
  end.

(** [d[k] = v] *)
Fixpoint dict_set (k : string) (v : pyvalue) (d : pydict) : pydict :=
  match d with
  | [] => [(k, v)]
  | (k', v') :: d' =>
      if (k' =? k)%string then (k, v) :: d' else (k', v') :: dict_set k v d'
  end.

(** [k in d] *)
Definition dict_has (k : string) (d : pydict) : bool :=
  match dict_get k d with Some _ => true | None => false end.

(** ** The outside world *)

(** What [requests] is asked to send: method, URL, headers, the remaining
    keyword arguments ([json=...], [params=...]) and the timeout in seconds. *)
Record request := mkRequest {
  req_method : string;
  req_url : string;
  req_headers : list (string * string);
  req_kwargs : list (string * pyvalue);
  req_timeout : Z
}.

(** A [requests.Response].  [json] is [None] when [response.json()] raises
    [json.JSONDecodeError]. *)
Record response := mkResponse {
  status_code : Z;
  reason : string;
  headers : list (string * string);
  content : string;
  text : string;
  json : option pyvalue
}.

(** [response.headers.get(k, default)]: the header dictionary of [requests]
    compares keys without regard to case. *)
Fixpoint headers_get (k default : string) (hs : list (string * string)) : string :=
  match hs with
  | [] => default
  | (k', v) :: hs' =>
      if (lower k' =? lower k)%string then v else headers_get k default hs'
  end.

(** The two ways a call into [requests] ends: with a response (of any status)
    or with a [requests.exceptions.RequestException] carrying [str(e)]. *)
Inductive reply :=
| Responded (r : response)
| RequestException (msg : string).

(** The state of everything outside the process: the requests that reached
    the network so far (oldest first), how often the clock has been read, and
    the records handed to the [logging] module (level, message). *)
Record world := mkWorld {
  net : list request;
  ticks : nat;
  logged : list (string * string)
}.

Definition world0 : world := mkWorld [] 0 [].

(** ** Exceptions and the method monad *)

Inductive exn :=
| SecurityError (msg : string)
| KeyError (key : string)
| ZeroDivisionError.

Inductive result (A : Type) :=
| Returned (a : A)
| Raised (e : exn).
Arguments Returned {A} a.
Arguments Raised {A} e.

Definition M (St A : Type) : Type := St * world -> result A * (St * world).

Definition ret {St A} (a : A) : M St A := fun st => (Returned a, st).

Definition raise {St A} (e : exn) : M St A := fun st => (Raised e, st).

Definition bind {St A B} (c : M St A) (k : A -> M St B) : M St B :=
  fun st =>
    match c st with
    | (Returned a, st') => k a st'
    | (Raised e, st') => (Raised e, st')
    end.

(** [try: c  except Exception as e: h e] *)
Definition try_except {St A} (c : M St A) (h : exn -> M St A) : M St A :=
  fun st =>
    match c st with
    | (Returned a, st') => (Returned a, st')
    | (Raised e, st') => h e st'
    end.

Declare Scope py_scope.
Delimit Scope py_scope with py.
Notation "x <- c ;; k" := (bind c (fun x => k))
  (at level 61, c at next level, right associativity) : py_scope.
Notation "c ;;; k" := (bind c (fun _ => k))
  (at level 61, right associativity) : py_scope.
Local Open Scope py_scope.

(** [str(e)] *)
Definition str_of_exn (e : exn) : string :=
  match e with
  | SecurityError msg => msg
  | KeyError key => "'" ++ key ++ "'"
  | ZeroDivisionError => "division by zero"
  end.

(** [for x in xs: body x] *)
Fixpoint for_each {St A} (xs : list A) (body : A -> M St unit) : M St unit :=
  match xs with
  | [] => ret tt
  | x :: xs' => body x ;;; for_each xs' body
  end.

Section Environment.

(** The network: the reply to the [n]-th request the process sends (counting
    from 0) when that request is [rq].  The clock: the text of the [n]-th
    reading of [datetime.now().isoformat()]. *)
Variable tr : nat -> request -> reply.
Variable now : nat -> string.

(** One call into [requests]: the request is put on the wire and the
    environment answers. *)
Definition send {St} (rq : request) : M St reply :=
  fun '(s, w) =>
    (Returned (tr (List.length (net w)) rq),
     (s, mkWorld (net w ++ [rq]) (ticks w) (logged w))).

(** [datetime.now().isoformat()] *)
Definition datetime_now {St} : M St string :=
  fun '(s, w) =>
    (Returned (now (ticks w)), (s, mkWorld (net w) (S (ticks w)) (logged w))).

(** [logging.info(msg)], [logging.error(msg)] *)
Definition logging_emit {St} (level msg : string) : M St unit :=
  fun '(s, w) =>
    (Returned tt, (s, mkWorld (net w) (ticks w) (logged w ++ [(level, msg)]))).

End Environment.

(** Reading and updating the attributes of [self]. *)
Definition get_self {St} : M St St := fun '(s, w) => (Returned s, (s, w)).

Definition set_self {St} (f : St -> St) : M St unit :=
  fun '(s, w) => (Returned tt, (f s, w)).

(** A [for] loop that carries local variables [acc] from one pass to the next. *)
Fixpoint for_fold {St A B} (xs : list A) (acc : B) (body : B -> A -> M St B) : M St B :=
  match xs with
  | [] => ret acc
  | x :: xs' => acc' <- body acc x ;; for_fold xs' acc' body
  end.

(** ** examples/write_access_analyzer.py *)

Module WriteAccessAnalyzer.

(** One element of [self.security_log]: the dictionary built by
    [security_log_entry], whose seven keys are always present. *)
Record log_entry := mkLogEntry {
  timestamp : string;
  operation : string;
  endpoint : string;
  method : string;
  success : bool;
  details : string;
  data_safe : bool
}.

(** The attributes of an analyzer.  [allowed_methods] and [blocked_methods]
    are assigned once in [__init__] and never again; they are the two
    constants below. *)
Record analyzer := mkAnalyzer {
  write_access_key : string;
  base_url : string;
  session_headers : list (string * string);
  analysis_results : list pyvalue;
  security_log : list log_entry
}.

Definition allowed_methods : list string := ["GET"; "OPTIONS"; "HEAD"].
Definition blocked_methods : list string := ["POST"; "PUT"; "DELETE"; "PATCH"].

(** The dictionary returned by [generate_security_report]. *)
Record security_report := mkSecurityReport {
  analysis_timestamp : string;
  api_key : string;
  report_base_url : string;
  total_operations : nat;
  successful_operations : nat;
  success_rate : Q;
  write_attempts_blocked : nat;
  data_safety_verified : bool;
  analysis_categories : nat;
  security_log_entries : nat;
  data_modification_attempts : nat;
  safety_status : string
}.

Section Env.

Variable tr : nat -> request -> reply.
Variable now : nat -> string.

Definition __init__ (key : string) : world -> analyzer * world :=
  fun w =>
    let self :=
      mkAnalyzer key "https://app.pendo.io"
        [("X-Pendo-Integration-Key", key);
         ("Content-Type", "application/json");
         ("Accept", "application/json");
         ("User-Agent", "Pendo-Write-Access-Analyzer/1.0 (READ-ONLY)")]
        [] [] in
    let c : M analyzer unit :=
      logging_emit "INFO" "🔒 WRITE ACCESS ANALYZER INITIALIZED" ;;;
      logging_emit "INFO" ("🔑 Key: " ++ take 10 key ++ "...") ;;;
      logging_emit "INFO" ("🌐 Base URL: " ++ "https://app.pendo.io") ;;;
      logging_emit "INFO" "🛡️ SAFETY MODE: READ-ONLY ANALYSIS ONLY" in
    snd (c (self, w)).

Definition security_log_entry (operation endpoint method : string)
    (success : bool) (details : string) : M analyzer log_entry :=
  ts <- datetime_now now ;;
  let log_entry := mkLogEntry ts operation endpoint method success details true in
  set_self (fun self =>
    mkAnalyzer (write_access_key self) (base_url self) (session_headers self)
      (analysis_results self) (security_log self ++ [log_entry])) ;;;
  let status := if success then "✅" else "❌" in
  logging_emit "INFO" (status ++ " " ++ method ++ " " ++ endpoint ++ " - " ++ details) ;;;
  ret log_entry.

Definition safe_read_only_request (method endpoint : string)
    (kwargs : list (string * pyvalue)) : M analyzer pyvalue :=
  if str_in (upper method) blocked_methods then
    let error_msg :=
      "🚫 SECURITY BLOCK: " ++ method
        ++ " operations not allowed - READ-ONLY ANALYSIS ONLY" in
    logging_emit "ERROR" error_msg ;;;
    raise (SecurityError error_msg)
  else if negb (str_in (upper method) allowed_methods) then
    let error_msg :=
      "🚫 SECURITY BLOCK: " ++ method ++ " not permitted - Only "
        ++ repr_str_list allowed_methods ++ " allowed" in
    logging_emit "ERROR" error_msg ;;;
    raise (SecurityError error_msg)
  else
    self <- get_self ;;
    let url := base_url self ++ endpoint in
    logging_emit "INFO" ("🔍 SAFE ANALYSIS: " ++ method ++ " " ++ endpoint) ;;;
    rp <- send tr (mkRequest method url (session_headers self) kwargs 15) ;;
    match rp with
    | Responded response =>
        if existsb (Z.eqb (status_code response)) [200; 201; 202] then
          let content_type := headers_get "content-type" "" (headers response) in
          if contains "application/json" content_type then
            match json response with
            | Some data =>
                security_log_entry "SAFE_READ_REQUEST" endpoint method true
                  ("Status " ++ str_of_Z (status_code response)
                     ++ ", Data retrieved safely") ;;;
                ret data
            | None =>
                security_log_entry "SAFE_READ_REQUEST" endpoint method true
                  ("Status " ++ str_of_Z (status_code response)
                     ++ ", Non-JSON response") ;;;
                ret (PyDict [("text", PyStr (text response))])
            end
          else
            security_log_entry "SAFE_READ_REQUEST" endpoint method true
              ("Status " ++ str_of_Z (status_code response)
                 ++ ", Non-JSON content type: " ++ content_type) ;;;
            ret (PyDict [("text", PyStr (text response))])
        else
          security_log_entry "SAFE_READ_REQUEST" endpoint method false
            ("Status " ++ str_of_Z (status_code response) ++ ": "
               ++ take 100 (reason response)) ;;;
          ret PyNone
    | RequestException e =>
        let error_msg := "Request failed: " ++ take 100 e in
        security_log_entry "SAFE_READ_REQUEST" endpoint method false error_msg ;;;
        ret PyNone
    end.





(** Writing the two JSON files to disk is left out. *)
Definition generate_security_report : M analyzer security_report :=
  self <- get_self ;;
  let total_operations := List.length (security_log self) in
  let successful_operations :=
    List.length (filter (fun log => success log) (security_log self)) in
  let write_attempts :=
    filter (fun log => str_in (method log) blocked_methods) (security_log self) in
  let data_safe := forallb (fun log => data_safe log) (security_log self) in
  ts <- datetime_now now ;;
  ret (mkSecurityReport
         ts
         (take 10 (write_access_key self) ++ "...")
         (base_url self)
         total_operations
         successful_operations
         (if (0 <? total_operations)%nat
          then (inject_Z (Z.of_nat successful_operations)
                  / inject_Z (Z.of_nat total_operations)) * 100
          else 0)%Q
         (List.length write_attempts)
         data_safe
         (List.length (analysis_results self))
         (List.length (security_log self))
         0%nat
         (if data_safe && (List.length write_attempts =? 0)%nat
          then "VERIFIED SAFE" else "NEEDS REVIEW")).

End Env.

End WriteAccessAnalyzer.

(** [d[k]]: raises [KeyError] when the key is missing. *)
Definition getitem {St} (d : pydict) (k : string) : M St pyvalue :=
  match dict_get k d with
  | Some v => ret v
  | None => raise (KeyError k)
  end.

(** [[x for x in xs if test x]] where the test may raise. *)
Fixpoint filter_m {St A} (test : A -> M St bool) (xs : list A) : M St (list A) :=
  match xs with
  | [] => ret []
  | x :: xs' =>
      b <- test x ;;
      rest <- filter_m test xs' ;;
      ret (if b then x :: rest else rest)
  end.

(** ** examples/real_pendo_api_explorer.py *)

Module RealPendoAPIExplorer.

(** The attributes of an explorer.  [working_base_url] and
    [working_endpoints] do not exist until the probe loop creates them
    ([hasattr] tells): [None] stands for the missing attribute. *)
Record explorer := mkExplorer {
  api_key : string;
  case_code : string;
  base_urls : list string;
  results : list pydict;
  working_base_url : option string;
  working_endpoints : option (list pydict)
}.

(** The dictionary returned by [generate_comprehensive_report]; the field
    names are its keys, [report_] set before those that are also attributes. *)
Record report := mkReport {
  exploration_timestamp : string;
  integration_key : string;
  report_case_code : string;
  base_urls_tested : list string;
  report_working_base_url : option string;
  total_tests : nat;
  successful_tests : nat;
  success_rate : Q;
  report_working_endpoints : list pyvalue;
  discovered_capabilities : list string;
  detailed_results : list pydict
}.

(** [__init__]; the key comes from [PendoAPIClient()], which reads it from
    the environment. *)
Definition __init__ (key : string) : explorer :=
  mkExplorer key "b071f706-e996-4018-8e88-295c586edfe3"
    ["https://app.pendo.io";
     "https://app.eu.pendo.io";
     "https://us1.app.pendo.io";
     "https://app.jpn.pendo.io";
     "https://app.au.pendo.io"]
    [] None None.

Definition api_endpoints : list string :=
  ["/api/v1/aggregation"; "/api/v1/aggregate";
   "/api/v1/visitor"; "/api/v1/visitors"; "/api/v1/visitor/{visitorId}";
   "/api/v1/visitors/bulk";
   "/api/v1/account"; "/api/v1/accounts"; "/api/v1/account/{accountId}";
   "/api/v1/accounts/bulk";
   "/api/v1/guide"; "/api/v1/guides"; "/api/v1/guide/{guideId}";
   "/api/v1/guides/bulk";
   "/api/v1/feature"; "/api/v1/features"; "/api/v1/feature/{featureId}";
   "/api/v1/page"; "/api/v1/pages"; "/api/v1/page/{pageId}";
   "/api/v1/track"; "/api/v1/events";
   "/api/v1/report"; "/api/v1/reports"; "/api/v1/report/{reportId}";
   "/api/v1/metadata/schema"; "/api/v1/metadata/fields";
   "/api/v1/usage"; "/api/v1/subscription";
   "/api/v1/status"; "/api/v1/health"].

Section Env.

Variable tr : nat -> request -> reply.
Variable now : nat -> string.

Definition test_pendo_endpoint (base_url endpoint method : string)
    (data : pyvalue) : M explorer pydict :=
  self <- get_self ;;
  let url := base_url ++ endpoint in
  let headers' :=
    [("X-Pendo-Integration-Key", api_key self);
     ("Content-Type", "application/json");
     ("Accept", "application/json");
     ("User-Agent", "Pendo-API-Explorer/1.0")] in
  rp <- send tr (mkRequest method url headers' [("json", data)] 15) ;;
  match rp with
  | Responded response =>
      let result : pydict :=
        [("base_url", PyStr base_url);
         ("endpoint", PyStr endpoint);
         ("method", PyStr method);
         ("status_code", PyInt (status_code response));
         ("success", PyBool (status_code response <? 400));
         ("content_type",
          PyStr (headers_get "content-type" "" (headers response)));
         ("content_length",
          PyInt (Z.of_nat (String.length (content response))));
         ("headers",
          PyDict (map (fun '(k, v) => (k, PyStr v)) (headers response)))] in
      let nonempty := negb (content response =? "")%string in
      if nonempty
         && contains "application/json"
              (headers_get "content-type" "" (headers response))
      then
        match json response with
        | Some data' => ret (dict_set "sample_data" data' result)
        | None =>
            ret (dict_set "text_preview" (PyStr (take 200 (text response))) result)
        end
      else if nonempty then
        ret (dict_set "text_preview" (PyStr (take 200 (text response))) result)
      else ret result
  | RequestException e =>
      ret [("base_url", PyStr base_url);
           ("endpoint", PyStr endpoint);
           ("method", PyStr method);
           ("success", PyBool false);
           ("error", PyStr e)]
  end.

(** One pass of the inner loop of [test_real_pendo_endpoints].  Of the two
    [print] calls only the subscript [result['status_code']] they format is
    kept: it raises [KeyError] when the key is missing. *)
Definition probe_one (base_url : string) (base_url_results : list pydict)
    (endpoint : string) : M explorer (list pydict) :=
  result <- test_pendo_endpoint base_url endpoint "GET" PyNone ;;
  let result := dict_set "base_url" (PyStr base_url) result in
  let base_url_results := (base_url_results ++ [result])%list in
  ok <- getitem result "success" ;;
  (if truthy ok
   then getitem result "status_code" ;;; ret tt
   else getitem result "status_code" ;;; ret tt) ;;;
  ret base_url_results.

(** One pass of the outer loop: all endpoints on one base URL. *)
Definition probe_host (endpoints : list string) (base_url : string)
    : M explorer unit :=
  base_url_results <- for_fold endpoints ([] : list pydict) (probe_one base_url) ;;
  working <-
    filter_m (fun r => ok <- getitem r "success" ;; ret (truthy ok))
      base_url_results ;;
  (match working with
   | [] => ret tt
   | _ :: _ =>
       set_self (fun self =>
         match working_base_url self with
         | Some _ => self
         | None =>
             mkExplorer (api_key self) (case_code self) (base_urls self)
               (results self) (Some base_url) (Some working)
         end)
   end) ;;;
  set_self (fun self =>
    mkExplorer (api_key self) (case_code self) (base_urls self)
      (results self ++ base_url_results)
      (working_base_url self) (working_endpoints self)).

(** The loops of [test_real_pendo_endpoints] over [self.base_urls] and the
    given endpoint list. *)
Definition probe_endpoints (endpoints : list string) : M explorer (list pydict) :=
  self <- get_self ;;
  for_each (base_urls self) (probe_host endpoints) ;;;
  self <- get_self ;;
  ret (results self).

Definition test_real_pendo_endpoints : M explorer (list pydict) :=
  probe_endpoints api_endpoints.

(** [set.add] followed by [list(set)]: the elements in the order of their
    first insertion. *)
Definition set_add (x : string) (s : list string) : list string :=
  if str_in x s then s else s ++ [x].

Definition endpoint_of (r : pydict) : string :=
  match dict_get "endpoint" r with
  | Some (PyStr e) => e
  | _ => ""
  end.

Definition _discover_capabilities (successful_results : list pydict) : list string :=
  fold_left
    (fun capabilities result =>
       let endpoint := endpoint_of result in
       if contains "aggregation" endpoint then set_add "Analytics & Aggregation" capabilities
       else if contains "visitor" endpoint then set_add "Visitor Management" capabilities
       else if contains "account" endpoint then set_add "Account Management" capabilities
       else if contains "guide" endpoint then set_add "Guide Management" capabilities
       else if contains "feature" endpoint then set_add "Feature Analytics" capabilities
       else if contains "page" endpoint then set_add "Page Analytics" capabilities
       else if contains "track" endpoint || contains "event" endpoint
            then set_add "Event Tracking" capabilities
       else if contains "report" endpoint then set_add "Reporting" capabilities
       else if contains "metadata" endpoint then set_add "Metadata Management" capabilities
       else if contains "status" endpoint || contains "health" endpoint
            then set_add "System Status" capabilities
       else capabilities)
    successful_results [].

(** [r.get('success', False)] as a truth value *)
Definition get_success (r : pydict) : bool :=
  match dict_get "success" r with
  | Some v => truthy v
  | None => false
  end.

(** Every group of [all_results] is a list here, so the [isinstance] test of
    the flattening loop holds.  Writing the JSON file to disk is left out. *)
Definition generate_comprehensive_report (all_results : list (list pydict))
    : M explorer report :=
  timestamp <- datetime_now now ;;
  self <- get_self ;;
  let flattened_results := List.concat all_results in
  let successful_results := filter get_success flattened_results in
  ret (mkReport
         timestamp
         (take 10 (api_key self) ++ "...")
         (case_code self)
         (base_urls self)
         (working_base_url self)
         (List.length flattened_results)
         (List.length successful_results)
         (match flattened_results with
          | [] => 0
          | _ :: _ =>
              inject_Z (Z.of_nat (List.length successful_results))
                / inject_Z (Z.of_nat (List.length flattened_results)) * 100
          end)%Q
         (flat_map
            (fun r => match dict_get "endpoint" r with
                      | Some e => [e]
                      | None => []
                      end)
            successful_results)
         (_discover_capabilities successful_results)
         flattened_results).

End Env.

End RealPendoAPIExplorer.

(** ** examples/access_capabilities_investigator.py *)

Module PendoAccessInvestigator.

(** One element of [self.results]: the dictionary built by [log_result]. *)
Record logged_result := mkResult {
  timestamp : string;
  category : string;
  operation : string;
  success : bool;
  details : string;
  data_count : nat;
  sample_data : pyvalue
}.

(** The attributes of an investigator; [api_key] and [base_url] are those of
    its [PendoAPIClientV2]. *)
Record investigator := mkInvestigator {
  api_key : string;
  base_url : string;
  results : list logged_result
}.

(** A value of the [categories] dictionary of [analyze_permissions]. *)
Record stats := mkStats {
  stats_success : nat;
  stats_total : nat
}.

Record capabilities := mkCapabilities {
  read_access : nat;
  write_access : nat;
  management_access : nat;
  delete_access : nat;
  account_access : nat
}.

(** The dictionary returned by [generate_investigation_report]. *)
Record report := mkReport {
  investigation_timestamp : string;
  integration_key : string;
  report_base_url : string;
  api_status : pyvalue;
  data_overview : pyvalue;
  access_level : string;
  permission_breakdown : list (string * stats);
  total_operations_tested : nat;
  successful_operations : nat;
  detailed_results : list logged_result;
  capabilities_summary : capabilities
}.

(** The pass of the first loop of [analyze_permissions] for one result. *)
Fixpoint count_category (category : string) (ok : bool)
    (categories : list (string * stats)) : list (string * stats) :=
  match categories with
  | [] => [(category, mkStats (if ok then 1 else 0) 1)]
  | (c, st) :: rest =>
      if (c =? category)%string
      then (c, mkStats (stats_success st + (if ok then 1 else 0))
                 (stats_total st + 1)) :: rest
      else (c, st) :: count_category category ok rest
  end%nat.

(** [total_success / total_operations * 100], with the division and the
    product of Python floats taken as exact rational arithmetic. *)
Definition overall_success_rate (total_success total_operations : nat) : Q :=
  inject_Z (Z.of_nat total_success) / inject_Z (Z.of_nat total_operations) * 100.

(** The [if]/[elif] chain that names the access level. *)
Definition access_level_of (overall_success_rate : Q) : string :=
  if Qle_bool 75 overall_success_rate then "FULL ACCESS"
  else if Qle_bool 50 overall_success_rate then "MODERATE ACCESS"
  else if Qle_bool 25 overall_success_rate then "LIMITED ACCESS"
  else "MINIMAL ACCESS".

(** The same two steps in IEEE 754 binary64, as CPython computes them: the
    integers are converted to floats, divided, multiplied by [100.0] and
    compared with the thresholds. *)
Definition overall_success_rate_float (total_success total_operations : nat) : float :=
  (PrimFloat.of_uint63 (Uint63.of_Z (Z.of_nat total_success))
     / PrimFloat.of_uint63 (Uint63.of_Z (Z.of_nat total_operations))
     * 100)%float.

Definition access_level_of_float (overall_success_rate : float) : string :=
  if PrimFloat.leb 75 overall_success_rate then "FULL ACCESS"
  else if PrimFloat.leb 50 overall_success_rate then "MODERATE ACCESS"
  else if PrimFloat.leb 25 overall_success_rate then "LIMITED ACCESS"
  else "MINIMAL ACCESS".

Section Env.

Variable now : nat -> string.

(** [self.client.get_data_overview()] and [self.client.get_api_status()]:
    calls into [PendoAPIClientV2], which holds no reference to the
    investigator; each is a computation on the world alone. *)
Variable client_get_data_overview : world -> result pyvalue * world.
Variable client_get_api_status : world -> result pyvalue * world.

Definition call_client (c : world -> result pyvalue * world)
    : M investigator pyvalue :=
  fun '(self, w) => let '(r, w') := c w in (r, (self, w')).

Definition log_result (category operation : string) (success : bool)
    (details : string) (data : pyvalue) : M investigator logged_result :=
  ts <- datetime_now now ;;
  let result :=
    mkResult ts category operation success details
      (if truthy data && isinstance_list data
       then match data with PyList l => List.length l | _ => 0%nat end
       else if truthy data then 1%nat else 0%nat)
      (match data with
       | PyList (x :: _) => x
       | _ => PyNone
       end) in
  set_self (fun self =>
    mkInvestigator (api_key self) (base_url self) (results self ++ [result])) ;;;
  ret result.

Definition analyze_permissions : M investigator (list (string * stats) * string) :=
  self <- get_self ;;
  let categories :=
    fold_left
      (fun categories result =>
         count_category (category result) (success result) categories)
      (results self) [] in
  let total_success := List.length (filter (fun r => success r) (results self)) in
  let total_operations := List.length (results self) in
  if (total_operations =? 0)%nat then raise ZeroDivisionError
  else
    let access_level :=
      access_level_of (overall_success_rate total_success total_operations) in
    ret (categories, access_level).

Definition in_operation (word : string) (r : logged_result) : bool :=
  contains word (lower (operation r)).

(** Writing the JSON file to disk is left out. *)
Definition generate_investigation_report : M investigator report :=
  timestamp <- datetime_now now ;;
  data_overview <-
    try_except (call_client client_get_data_overview)
      (fun _ => ret (PyDict [("error", PyStr "Could not retrieve data overview")])) ;;
  api_status <-
    try_except (call_client client_get_api_status)
      (fun _ => ret (PyDict [("error", PyStr "Could not retrieve API status")])) ;;
  ca <- analyze_permissions ;;
  let '(categories, access_level) := ca in
  self <- get_self ;;
  let count (p : logged_result -> bool) :=
    List.length (filter (fun r => success r && p r) (results self)) in
  ret (mkReport
         timestamp
         (take 10 (api_key self) ++ "...")
         (base_url self)
         api_status
         data_overview
         access_level
         categories
         (List.length (results self))
         (List.length (filter (fun r => success r) (results self)))
         (results self)
         (mkCapabilities
            (count (fun r =>
               in_operation "read" r
               || str_in (category r)
                    ["Guides"; "Features"; "Pages"; "Reports"; "Metadata"]))
            (count (fun r =>
               in_operation "create" r || in_operation "update" r
               || in_operation "write" r))
            (count (fun r =>
               str_in (category r) ["Analytics"; "Events"; "Bulk Operations"]))
            (count (fun r => (category r =? "Delete")%string))
            (count (fun r => (category r =? "Account")%string)))).

End Env.

End PendoAccessInvestigator.

(** ** Vocabulary of the statements *)

Module Gate.

Import WriteAccessAnalyzer.

(** The request an analyzer puts on the wire for a method the gate lets
    through. *)
Definition gate_request (s : analyzer) (m ep : string)
    (kw : list (string * pyvalue)) : request :=
  mkRequest m (base_url s ++ ep) (session_headers s) kw 15.

(** What the guarded send hands back for a reply, and the [success] flag it
    writes to the audit log, read off the branches of
    [safe_read_only_request]. *)
Definition fetched (rp : reply) : pyvalue :=
  match rp with
  | Responded r =>
      if existsb (Z.eqb (status_code r)) [200; 201; 202] then
        if contains "application/json" (headers_get "content-type" "" (headers r))
        then match json r with
             | Some data => data
             | None => PyDict [("text", PyStr (text r))]
             end
        else PyDict [("text", PyStr (text r))]
      else PyNone
  | RequestException _ => PyNone
  end.

Definition fetch_success (rp : reply) : bool :=
  match rp with
  | Responded r => existsb (Z.eqb (status_code r)) [200; 201; 202]
  | RequestException _ => false
  end.

Definition with_security_log (s : analyzer) (l : list log_entry) : analyzer :=
  mkAnalyzer (write_access_key s) (base_url s) (session_headers s)
    (analysis_results s) l.

(** One call of the guarded send, and the state after a sequence of them
    (a call that raises leaves the state it reached). *)
Record gate_call := mkCall {
  call_method : string;
  call_endpoint : string;
  call_kwargs : list (string * pyvalue)
}.

Definition passes (c : gate_call) : bool :=
  str_in (upper (call_method c)) allowed_methods.

Definition run_calls (tr : nat -> request -> reply) (now : nat -> string)
    (calls : list gate_call) (st : analyzer * world) : analyzer * world :=
  fold_left
    (fun st c =>
       snd (safe_read_only_request tr now
              (call_method c) (call_endpoint c) (call_kwargs c) st))
    calls st.



(** A service that answers every request with status 200 and the JSON
    document [[]]; one that answers 200 with an HTML page; a network that is
    down; a clock whose readings are numbered. *)
Definition tr_empty_list : nat -> request -> reply :=
  fun _ _ =>
    Responded
      (mkResponse 200 "OK" [("Content-Type", "application/json")]
         "[]" "[]" (Some (PyList []))).

Definition tr_down : nat -> request -> reply :=
  fun _ _ => RequestException "Connection refused".

Definition now_numbered : nat -> string :=
  fun n => "2025-01-01T00:00:00." ++ str_of_Z (Z.of_nat n).

Definition demo_key : string := "demo-key-0000-1111.us".

End Gate.

Module Probe.

Import RealPendoAPIExplorer.

(** The request [test_pendo_endpoint] puts on the wire. *)
Definition explorer_request (s : explorer) (base_url endpoint method : string)
    (data : pyvalue) : request :=
  mkRequest method (base_url ++ endpoint)
    [("X-Pendo-Integration-Key", api_key s);
     ("Content-Type", "application/json");
     ("Accept", "application/json");
     ("User-Agent", "Pendo-API-Explorer/1.0")]
    [("json", data)] 15.

(** The dictionary [test_pendo_endpoint] returns when [requests] raises. *)
Definition error_outcome (base_url endpoint method e : string) : pydict :=
  [("base_url", PyStr base_url);
   ("endpoint", PyStr endpoint);
   ("method", PyStr method);
   ("success", PyBool false);
   ("error", PyStr e)].

(** The attempt an outcome belongs to. *)
Definition attempt_of (out : pydict) : option pyvalue * option pyvalue :=
  (dict_get "base_url" out, dict_get "endpoint" out).

Definition attempt (host_endpoint : string * string)
    : option pyvalue * option pyvalue :=
  (Some (PyStr (fst host_endpoint)), Some (PyStr (snd host_endpoint))).

(** The service responds to every request numbered from [lo] up to, not
    including, [hi]; [requests] raises on every request numbered [n]. *)
Definition responds (tr : nat -> request -> reply) (lo hi : nat) : Prop :=
  forall n rq, (lo <= n < hi)%nat -> exists r, tr n rq = Responded r.

Definition fails_at (tr : nat -> request -> reply) (n : nat) (msg : string) : Prop :=
  forall rq, tr n rq = RequestException msg.

(** A service that answers the first [k] requests with status 200 and an
    empty body, and a network that fails from then on. *)
Definition tr_fails_from (k : nat) : nat -> request -> reply :=
  fun n _ =>
    if (n <? k)%nat
    then Responded (mkResponse 200 "OK" [] "" "" None)
    else RequestException "Connection refused".

End Probe.

Module Classify.

Import PendoAccessInvestigator.

(** Number of successful results. *)
Definition successes (rs : list logged_result) : nat :=
  List.length (filter (fun r => success r) rs).

(** A run of [total] results of which the first [ok] succeeded. *)
Definition run_of (ok total : nat) : list logged_result :=
  (repeat (mkResult "" "Guides" "List All Guides" true "" 0 PyNone) ok
   ++ repeat (mkResult "" "Guides" "List All Guides" false "" 0 PyNone)
        (total - ok))%list.

(** The access level [analyze_permissions] names for a list of results. *)
Definition verdict_of (rs : list logged_result) : result string :=
  match fst (analyze_permissions (mkInvestigator "" "" rs, world0)) with
  | Returned (_, access_level) => Returned access_level
  | Raised e => Raised e
  end.

(** A report with three of its fields replaced. *)
Definition with_fetched (r : report) (ts : string) (status overview : pyvalue)
    : report :=
  mkReport ts (integration_key r) (report_base_url r) status overview
    (access_level r) (permission_breakdown r) (total_operations_tested r)
    (successful_operations r) (detailed_results r) (capabilities_summary r).

End Classify.

Module Reporter.

Import RealPendoAPIExplorer.

(** A report with its timestamp replaced. *)
Definition with_timestamp (r : report) (ts : string) : report :=
  mkReport ts (integration_key r) (report_case_code r) (base_urls_tested r)
    (report_working_base_url r) (total_tests r) (successful_tests r)
    (success_rate r) (report_working_endpoints r) (discovered_capabilities r)
    (detailed_results r).

End Reporter.

(** ** examples/write_access_analyzer.py: the read phases *)

Module AnalyzerPhases.

Import WriteAccessAnalyzer.

(** [type(x).__name__] *)
Definition type_name (v : pyvalue) : string :=
  match v with
  | PyNone => "NoneType"
  | PyBool _ => "bool"
  | PyInt _ => "int"
  | PyFloat _ => "float"
  | PyStr _ => "str"
  | PyList _ => "list"
  | PyDict _ => "dict"
  end.

(** [len(x)] for a list *)
Definition len (v : pyvalue) : Z :=
  match v with
  | PyList l => Z.of_nat (List.length l)
  | _ => 0
  end.

(** [x[0] if isinstance(x, list) and x else None] *)
Definition first_or_None (v : pyvalue) : pyvalue :=
  match v with
  | PyList (x :: _) => x
  | _ => PyNone
  end.




Section Env.

Variable tr : nat -> request -> reply.
Variable now : nat -> string.

(** The [try]/[except] of the loop of [test_baseline_read_access]: the value
    stored under [results[name]]. *)
Definition baseline_entry (endpoint : string) : M analyzer pyvalue :=
  try_except
    (data <- safe_read_only_request tr now "GET" endpoint [] ;;
     if truthy data then
       let count := if isinstance_list data then PyInt (len data) else PyStr "data" in
       ret (PyDict [("success", PyBool true);
                    ("count", count);
                    ("sample", first_or_None data)])
     else
       ret (PyDict [("success", PyBool false);
                    ("error", PyStr "No data returned")]))
    (fun e =>
       ret (PyDict [("success", PyBool false);
                    ("error", PyStr (take 50 (str_of_exn e)))])).


(** The [try]/[except] of the loop of [test_enhanced_access_endpoints]. *)
Definition enhanced_entry (endpoint : string) : M analyzer pyvalue :=
  try_except
    (data <- safe_read_only_request tr now "GET" endpoint [] ;;
     if truthy data then
       let count := if isinstance_list data then PyInt (len data) else PyStr "object" in
       let sample := if isinstance_list data then first_or_None data else data in
       ret (PyDict [("success", PyBool true);
                    ("count", count);
                    ("sample", sample)])
     else
       ret (PyDict [("success", PyBool false);
                    ("error", PyStr "No data returned")]))
    (fun e =>
       ret (PyDict [("success", PyBool false);
                    ("error", PyStr (take 50 (str_of_exn e)))])).


(** The [try]/[except] of the loop of [analyze_permission_differences]. *)
Definition permission_entry (endpoint : string) : M analyzer pyvalue :=
  try_except
    (data <- safe_read_only_request tr now "GET" endpoint [] ;;
     if truthy data then
       ret (PyDict [("old_access", PyStr "BLOCKED");
                    ("new_access", PyStr "AVAILABLE");
                    ("improvement", PyStr "ENHANCED");
                    ("data_type", PyStr (type_name data));
                    ("has_records",
                     PyBool (isinstance_list data && (0 <? len data)
                             || match data with PyDict _ => true | _ => false end))])
     else
       ret (PyDict [("old_access", PyStr "BLOCKED");
                    ("new_access", PyStr "BLOCKED");
                    ("improvement", PyStr "NONE");
                    ("data_type", PyNone);
                    ("has_records", PyBool false)]))
    (fun e =>
       ret (PyDict [("old_access", PyStr "BLOCKED");
                    ("new_access", PyStr "ERROR");
                    ("improvement", PyStr "UNKNOWN");
                    ("error", PyStr (take 50 (str_of_exn e)))])).



End Env.




End AnalyzerPhases.
(** ** Vocabulary for the permission table *)

Module Breakdown.

Import PendoAccessInvestigator.

(** [categories[c]], if the key is there. *)
Fixpoint lookup (c : string) (categories : list (string * stats)) : option stats :=
  match categories with
  | [] => None
  | (c', st) :: rest => if (c' =? c)%string then Some st else lookup c rest
  end.

(** The results of one category. *)
Definition in_category (c : string) (rs : list logged_result) : list logged_result :=
  filter (fun r => (category r =? c)%string) rs.

Definition sum_total (categories : list (string * stats)) : nat :=
  fold_right (fun cs n => (stats_total (snd cs) + n)%nat) 0%nat categories.

Definition sum_success (categories : list (string * stats)) : nat :=
  fold_right (fun cs n => (stats_success (snd cs) + n)%nat) 0%nat categories.

(** One more result counted into the entry of its category. *)
Definition bump (ok : bool) (st : option stats) : stats :=
  match st with
  | None => mkStats (if ok then 1 else 0) 1
  | Some st =>
      mkStats (stats_success st + (if ok then 1 else 0)) (stats_total st + 1)
  end%nat.

(** The table [analyze_permissions] builds from a list of results. *)
Definition table (rs : list logged_result) : list (string * stats) :=
  fold_left
    (fun categories result =>
       count_category (category result) (success result) categories)
    rs [].

(** Successful results that satisfy [p]. *)
Definition count_where (p : logged_result -> bool) (rs : list logged_result) : nat :=
  List.length (filter (fun r => success r && p r) rs).

(** The access levels from lowest to highest. *)
Definition rank (access_level : string) : nat :=
  if (access_level =? "FULL ACCESS")%string then 3
  else if (access_level =? "MODERATE ACCESS")%string then 2
  else if (access_level =? "LIMITED ACCESS")%string then 1
  else 0.

(** The access level of an investigator, when [analyze_permissions] returns. *)
Definition level_of (i : investigator) : option string :=
  match fst (analyze_permissions (i, world0)) with
  | Returned (_, access_level) => Some access_level
  | Raised _ => None
  end.

End Breakdown.
(** ** examples/real_pendo_api_explorer.py: the follow-up tests and the run *)

Module ExplorerRun.

Import RealPendoAPIExplorer.

(** One entry of [aggregation_queries]: the request that counts the rows of
    a source. *)
Definition count_query (source : string) : pyvalue :=
  PyDict
    [("response", PyDict [("mimeType", PyStr "application/json")]);
     ("pipeline",
      PyList [PyDict [("source", PyDict [(source, PyDict [])])];
              PyDict [("count", PyStr "*")]])].

Definition aggregation_queries : list (string * pyvalue) :=
  [("Visitor Count", count_query "visitors");
   ("Account Count", count_query "accounts");
   ("Guide Activity", count_query "guideEvents")].

(** The [operations] of [test_visitor_metadata_operations] and of
    [test_guide_operations]: name, method, endpoint, data.  [stamp] is
    [datetime.now().strftime("%Y%m%d_%H%M%S")]. *)
Definition visitor_operations (stamp : string)
    : list (string * string * string * pyvalue) :=
  [("List Visitors", "GET", "/api/v1/visitor", PyNone);
   ("Get Visitor Metadata Schema", "GET", "/api/v1/metadata/schema/visitor", PyNone);
   ("Create/Update Visitor", "POST", "/api/v1/visitor",
    PyDict [("visitorId", PyStr ("test_visitor_" ++ stamp));
            ("values",
             PyDict [("email", PyStr "test@example.com");
                     ("firstName", PyStr "Test");
                     ("lastName", PyStr "User");
                     ("testField", PyStr "API Test")])])].

Definition guide_operations : list (string * string * string * pyvalue) :=
  [("List Guides", "GET", "/api/v1/guide", PyNone);
   ("Get Guide Schema", "GET", "/api/v1/metadata/schema/guide", PyNone)].

Section Env.

(** [now_compact] is the text of the [n]-th reading of the clock in the
    format [%Y%m%d_%H%M%S]. *)
Variable tr : nat -> request -> reply.
Variable now : nat -> string.
Variable now_compact : nat -> string.

(** One pass of the loop the three follow-up tests share: the call, the name
    stored under [name_key] ([query_name] or [operation_name]), the append,
    and the subscript [result['status_code']] the printed line formats. *)
Definition followup_step (name_key base_url : string) (results : list pydict)
    (op : string * string * string * pyvalue) : M explorer (list pydict) :=
  let '(name, method, endpoint, data) := op in
  result <- test_pendo_endpoint tr base_url endpoint method data ;;
  let result := dict_set name_key (PyStr name) result in
  let results := (results ++ [result])%list in
  ok <- getitem result "success" ;;
  (if truthy ok
   then getitem result "status_code" ;;; ret tt
   else getitem result "status_code" ;;; ret tt) ;;;
  ret results.

Definition test_aggregation_api : M explorer (list pydict) :=
  self <- get_self ;;
  match working_base_url self with
  | None => ret []
  | Some working_base_url =>
      for_fold
        (map (fun query =>
                (fst query, "POST", "/api/v1/aggregation", snd query))
           aggregation_queries)
        ([] : list pydict)
        (followup_step "query_name" working_base_url)
  end.

Definition test_visitor_metadata_operations : M explorer (list pydict) :=
  self <- get_self ;;
  match working_base_url self with
  | None => ret []
  | Some working_base_url =>
      stamp <- datetime_now now_compact ;;
      for_fold (visitor_operations stamp) ([] : list pydict)
        (followup_step "operation_name" working_base_url)
  end.

Definition test_guide_operations : M explorer (list pydict) :=
  self <- get_self ;;
  match working_base_url self with
  | None => ret []
  | Some working_base_url =>
      for_fold guide_operations ([] : list pydict)
        (followup_step "operation_name" working_base_url)
  end.

Definition run_complete_exploration : M explorer report :=
  endpoint_results <- test_real_pendo_endpoints tr ;;
  self <- get_self ;;
  all_results <-
    match working_base_url self with
    | Some _ =>
        aggregation_results <- test_aggregation_api ;;
        visitor_results <- test_visitor_metadata_operations ;;
        guide_results <- test_guide_operations ;;
        ret [endpoint_results; aggregation_results; visitor_results; guide_results]
    | None => ret [endpoint_results]
    end ;;
  generate_comprehensive_report now all_results.

End Env.

(** Whether the transport call counts a reply as a success. *)
Definition reply_ok (rp : reply) : bool :=
  match rp with
  | Responded r => status_code r <? 400
  | RequestException _ => false
  end.

(** The verdicts on the replies to the requests [rqs] when the first of them
    is the [n]-th request of the process. *)
Fixpoint replies_ok (tr : nat -> request -> reply) (n : nat)
    (rqs : list request) : list bool :=
  match rqs with
  | [] => []
  | rq :: rest => reply_ok (tr n rq) :: replies_ok tr (S n) rest
  end.

(** The requests of a probe run, hosts outer and endpoints inner. *)
Definition probe_requests (s : explorer) (endpoints : list string) : list request :=
  map (fun be => Probe.explorer_request s (fst be) (snd be) "GET" PyNone)
    (list_prod (base_urls s) endpoints).

(** [outcome['base_url']] as a string. *)
Definition host_of (o : pydict) : string :=
  match dict_get "base_url" o with
  | Some (PyStr b) => b
  | _ => ""
  end.

(** The explorer after the pass of the outer loop for [b] with outcomes
    [outs]. *)
Definition after_host (s : explorer) (b : string) (outs : list pydict) : explorer :=
  match filter get_success outs, working_base_url s with
  | (_ :: _) as working, None =>
      mkExplorer (api_key s) (case_code s) (base_urls s) (results s ++ outs)
        (Some b) (Some working)
  | _, _ =>
      mkExplorer (api_key s) (case_code s) (base_urls s) (results s ++ outs)
        (working_base_url s) (working_endpoints s)
  end.

(** The request of one follow-up operation (name, method, endpoint, data). *)
Definition op_request (s : explorer) (base_url : string)
    (op : string * string * string * pyvalue) : request :=
  let '(_, method, endpoint, data) := op in
  Probe.explorer_request s base_url endpoint method data.

(** The operations of the three follow-up tests, [stamp] being the clock
    reading of [test_visitor_metadata_operations]. *)
Definition followup_operations (stamp : string)
    : list (string * string * string * pyvalue) :=
  (map (fun query => (fst query, "POST", "/api/v1/aggregation", snd query))
     aggregation_queries
   ++ visitor_operations stamp
   ++ guide_operations)%list.

(** The service answers every request, always with a status below 400, or
    always with a status of 400 or more. *)
Definition always_succeeds (tr : nat -> request -> reply) : Prop :=
  forall n rq, exists r, tr n rq = Responded r /\ status_code r < 400.

Definition always_refuses (tr : nat -> request -> reply) : Prop :=
  forall n rq, exists r, tr n rq = Responded r /\ 400 <= status_code r.

(** The capability the [if]/[elif] chain of [_discover_capabilities] assigns
    to an endpoint: the first substring that matches decides. *)
Definition capability_of (endpoint : string) : option string :=
  if contains "aggregation" endpoint then Some "Analytics & Aggregation"
  else if contains "visitor" endpoint then Some "Visitor Management"
  else if contains "account" endpoint then Some "Account Management"
  else if contains "guide" endpoint then Some "Guide Management"
  else if contains "feature" endpoint then Some "Feature Analytics"
  else if contains "page" endpoint then Some "Page Analytics"
  else if contains "track" endpoint || contains "event" endpoint
       then Some "Event Tracking"
  else if contains "report" endpoint then Some "Reporting"
  else if contains "metadata" endpoint then Some "Metadata Management"
  else if contains "status" endpoint || contains "health" endpoint
       then Some "System Status"
  else None.

Definition capability_names : list string :=
  ["Analytics & Aggregation"; "Visitor Management"; "Account Management";
   "Guide Management"; "Feature Analytics"; "Page Analytics";
   "Event Tracking"; "Reporting"; "Metadata Management"; "System Status"].

(** Method and URL of a request. *)
Definition method_url (rq : request) : string * string :=
  (req_method rq, req_url rq).

End ExplorerRun.
(** ** The safety gate *)

Section SafetyGate.

Import WriteAccessAnalyzer Gate.
Local Open Scope list_scope.

Variable tr : nat -> request -> reply.
Variable now : nat -> string.

Lemma allowed_not_blocked x :
  str_in x allowed_methods = true -> str_in x blocked_methods = false.
Proof.
  unfold str_in, allowed_methods, blocked_methods; simpl.
  rewrite !orb_false_r.
  intros H.
  apply orb_true_iff in H as [H | H];
    [| apply orb_true_iff in H as [H | H]];
    apply String.eqb_eq in H; subst x; reflexivity.
Qed.

Lemma blocked_is_uppercase x :
  str_in x blocked_methods = true -> upper x = x.
Proof.
  unfold str_in, blocked_methods; simpl.
  rewrite !orb_false_r.
  intros H.
  repeat (apply orb_true_iff in H as [H | H]);
    apply String.eqb_eq in H; subst x; reflexivity.
Qed.

(** A method that passes the gate is not, as written, a blocked one. *)
Lemma passing_method_not_blocked m :
  str_in (upper m) allowed_methods = true -> str_in m blocked_methods = false.
Proof.
  intros Ha.
  destruct (str_in m blocked_methods) eqn:Hb; [| reflexivity].
  pose proof (blocked_is_uppercase _ Hb) as Hu.
  rewrite Hu in Ha.
  rewrite (allowed_not_blocked _ Ha) in Hb. discriminate.
Qed.

(** The gate lets the call through: one request, one audit entry. *)
Lemma gate_allowed m ep kw s w :
  str_in (upper m) allowed_methods = true ->
  let rp := tr (List.length (net w)) (gate_request s m ep kw) in
  exists entry w',
    safe_read_only_request tr now m ep kw (s, w)
    = (Returned (fetched rp),
       (with_security_log s (security_log s ++ [entry]), w'))
    /\ method entry = m
    /\ success entry = fetch_success rp
    /\ data_safe entry = true
    /\ net w' = net w ++ [gate_request s m ep kw].
Proof.
  intros Ha rp.
  unfold safe_read_only_request.
  rewrite (allowed_not_blocked _ Ha), Ha. cbn [negb].
  unfold bind at 1 2 3. unfold get_self, logging_emit, send.
  cbn [net ticks logged]. fold (gate_request s m ep kw). fold rp.
  unfold fetched, fetch_success, with_security_log.
  destruct rp as [r | e].
  - destruct (existsb _ _).
    + destruct (contains _ _).
      * destruct (json r); cbn; do 2 eexists; repeat split; reflexivity.
      * cbn; do 2 eexists; repeat split; reflexivity.
    + cbn; do 2 eexists; repeat split; reflexivity.
  - cbn; do 2 eexists; repeat split; reflexivity.
Qed.

(** The gate refuses the call: [SecurityError], one line for [logging],
    nothing else. *)
Lemma gate_refused m ep kw s w :
  str_in (upper m) allowed_methods = false ->
  exists msg,
    safe_read_only_request tr now m ep kw (s, w)
    = (Raised (SecurityError msg),
       (s, mkWorld (net w) (ticks w) (logged w ++ [("ERROR", msg)]))).
Proof.
  intros Ha. unfold safe_read_only_request. rewrite Ha. cbn [negb].
  destruct (str_in (upper m) blocked_methods); eexists; reflexivity.
Qed.

Lemma run_calls_cons c calls st :
  run_calls tr now (c :: calls) st
  = run_calls tr now calls
      (snd (safe_read_only_request tr now
              (call_method c) (call_endpoint c) (call_kwargs c) st)).
Proof. reflexivity. Qed.

(** What a sequence of calls leaves behind: the audit entries and the
    requests it added, one of each per call that passed the gate. *)
Lemma run_calls_trace calls : forall s w,
  exists entries sent w',
    run_calls tr now calls (s, w)
    = (with_security_log s (security_log s ++ entries), w')
    /\ net w' = net w ++ sent
    /\ Forall (fun e => str_in (upper (method e)) allowed_methods = true
                        /\ data_safe e = true) entries
    /\ Forall (fun rq => str_in (upper (req_method rq)) allowed_methods = true) sent
    /\ List.length entries = List.length (filter passes calls)
    /\ List.length sent = List.length (filter passes calls).
Proof.
  induction calls as [| c calls IH]; intros s w.
  - exists [], [], w. cbn. rewrite !app_nil_r.
    destruct s; repeat split; constructor.
  - rewrite run_calls_cons. cbn [filter].
    destruct (passes c) eqn:Ha; unfold passes in Ha.
    + destruct (gate_allowed _ (call_endpoint c) (call_kwargs c) s w Ha)
        as (entry & w1 & Heq & Hm & _ & Hsafe & Hnet).
      rewrite Heq. cbn [snd].
      destruct (IH (with_security_log s (security_log s ++ [entry])) w1)
        as (entries & sent & w' & Hrun & Hnet' & Hent & Hsent & Hlen & Hlen').
      exists (entry :: entries), (gate_request s (call_method c) (call_endpoint c) (call_kwargs c) :: sent), w'.
      split; [| split; [| split; [| split; [| split]]]].
      * rewrite Hrun. unfold with_security_log; cbn.
        rewrite <- app_assoc. reflexivity.
      * rewrite Hnet', Hnet, <- app_assoc. reflexivity.
      * constructor; [rewrite Hm; auto | exact Hent].
      * constructor; [exact Ha | exact Hsent].
      * cbn [List.length]. f_equal. exact Hlen.
      * cbn [List.length]. f_equal. exact Hlen'.
    + destruct (gate_refused _ (call_endpoint c) (call_kwargs c) s w Ha)
        as (msg & Heq).
      rewrite Heq. cbn [snd].
      destruct (IH s (mkWorld (net w) (ticks w) (logged w ++ [("ERROR", msg)])))
        as (entries & sent & w' & Hrun & Hnet' & Hent & Hsent & Hlen & Hlen').
      exists entries, sent, w'.
      split; [exact Hrun |].
      split; [exact Hnet' |].
      repeat split; assumption.
Qed.

Lemma init_security_log key w0 :
  security_log (fst (__init__ key w0)) = [] /\ net (snd (__init__ key w0)) = net w0.
Proof. destruct w0; split; reflexivity. Qed.

Lemma blocked_not_allowed x :
  str_in x blocked_methods = true -> str_in x allowed_methods = false.
Proof.
  intros Hb. destruct (str_in x allowed_methods) eqn:Ha; [| reflexivity].
  rewrite (allowed_not_blocked _ Ha) in Hb. discriminate.
Qed.

(** C1.  A call whose method, uppercased, is POST, PUT, DELETE or PATCH is
    refused before anything is sent: it raises [SecurityError], the list of
    requests on the wire and the audit log are as they were (one ERROR line
    went to [logging]).  Hence, after any sequence of calls on a new analyzer,
    no request that was sent and no audit entry carries a mutating method. *)
Theorem mutating_method_rejected_before_transport :
  forall key w0 calls m ep kw,
    str_in (upper m) blocked_methods = true ->
    let st := run_calls tr now calls (__init__ key w0) in
    (exists msg,
        safe_read_only_request tr now m ep kw st
        = (Raised (SecurityError msg),
           (fst st,
            mkWorld (net (snd st)) (ticks (snd st))
              (logged (snd st) ++ [("ERROR", msg)]))))
    /\ Forall (fun e => str_in (upper (method e)) blocked_methods = false)
         (security_log (fst st))
    /\ exists sent,
         net (snd st) = net w0 ++ sent
         /\ Forall
              (fun rq => str_in (upper (req_method rq)) blocked_methods = false)
              sent.
Proof.
  intros key w0 calls m ep kw Hb st.
  destruct (__init__ key w0) as [s0 w1] eqn:Hinit.
  destruct (init_security_log key w0) as [Hlog0 Hnet0].
  rewrite Hinit in Hlog0, Hnet0. cbn [fst snd] in Hlog0, Hnet0.
  destruct (run_calls_trace calls s0 w1)
    as (entries & sent & w' & Hrun & Hnet & Hent & Hsent & _).
  subst st. rewrite Hrun. cbn [fst snd].
  split; [| split].
  - apply gate_refused. now apply blocked_not_allowed.
  - cbn. rewrite Hlog0. cbn [app].
    eapply Forall_impl; [| exact Hent].
    intros e [He _]. now apply allowed_not_blocked.
  - exists sent. split; [now rewrite Hnet, Hnet0 |].
    eapply Forall_impl; [| exact Hsent].
    intros rq Hrq. now apply allowed_not_blocked.
Qed.

(** C2.  The audit log gains one entry per call that passes the gate and none
    for a call the gate refuses: after any sequence of calls on a new analyzer
    its length is the number of passing calls, and after a single DELETE call
    it is empty. *)
Theorem refused_call_leaves_no_audit_entry :
  forall key w0 calls,
    List.length
      (security_log (fst (run_calls tr now calls (__init__ key w0))))
    = List.length (filter passes calls)
    /\ security_log
         (fst (run_calls tr now [mkCall "DELETE" "/api/v1/visitor" []]
                 (__init__ key w0)))
       = [].
Proof.
  intros key w0 calls.
  assert (Hgen : forall cs,
             List.length
               (security_log (fst (run_calls tr now cs (__init__ key w0))))
             = List.length (filter passes cs)).
  { intros cs.
    destruct (__init__ key w0) as [s0 w1] eqn:Hinit.
    destruct (init_security_log key w0) as [Hlog0 _].
    rewrite Hinit in Hlog0. cbn [fst] in Hlog0.
    destruct (run_calls_trace cs s0 w1)
      as (entries & sent & w' & Hrun & _ & _ & _ & Hlen & _).
    rewrite Hrun. cbn. rewrite Hlog0. exact Hlen. }
  split; [apply Hgen |].
  specialize (Hgen [mkCall "DELETE" "/api/v1/visitor" []]).
  cbn in Hgen. now apply length_zero_iff_nil.
Qed.

(** C3 (amended).  A call whose method, uppercased, is outside GET, OPTIONS,
    HEAD raises [SecurityError] to its caller and sends nothing; a network
    failure on a method that passes the gate is not raised but returned as
    [None], so the two are told apart. *)
Theorem method_outside_allow_list_raises :
  forall m ep kw s w,
    str_in (upper m) allowed_methods = false ->
    (exists msg,
        safe_read_only_request tr now m ep kw (s, w)
        = (Raised (SecurityError msg),
           (s, mkWorld (net w) (ticks w) (logged w ++ [("ERROR", msg)]))))
    /\ (forall m' ep' kw' s' w' e,
          str_in (upper m') allowed_methods = true ->
          tr (List.length (net w')) (gate_request s' m' ep' kw')
          = RequestException e ->
          exists st',
            safe_read_only_request tr now m' ep' kw' (s', w')
            = (Returned PyNone, st')).
Proof.
  intros m ep kw s w Ha. split.
  - now apply gate_refused.
  - intros m' ep' kw' s' w' e Ha' Hrp.
    destruct (gate_allowed m' ep' kw' s' w' Ha') as (entry & w1 & Heq & _).
    rewrite Hrp in Heq. eexists. exact Heq.
Qed.

(** C9 (amended).  After any sequence of calls on a new analyzer every audit
    entry has a method whose uppercase form is GET, OPTIONS or HEAD; the
    security report then counts no write attempt, finds the data safe and has
    the status VERIFIED SAFE. *)
Theorem audit_log_holds_only_passing_methods :
  forall key w0 calls,
    let st := run_calls tr now calls (__init__ key w0) in
    Forall (fun e => str_in (upper (method e)) allowed_methods = true)
      (security_log (fst st))
    /\ exists rep st',
         generate_security_report now st = (Returned rep, st')
         /\ write_attempts_blocked rep = 0%nat
         /\ data_safety_verified rep = true
         /\ safety_status rep = "VERIFIED SAFE".
Proof.
  intros key w0 calls st.
  destruct (__init__ key w0) as [s0 w1] eqn:Hinit.
  destruct (init_security_log key w0) as [Hlog0 _].
  rewrite Hinit in Hlog0. cbn [fst] in Hlog0.
  destruct (run_calls_trace calls s0 w1)
    as (entries & sent & w' & Hrun & _ & Hent & _).
  subst st. rewrite Hrun. cbn [fst]. cbn [with_security_log security_log].
  rewrite Hlog0. cbn [app].
  assert (Hw : filter (fun log => str_in (method log) blocked_methods) entries = []).
  { clear Hrun. induction Hent as [| e l [He _] _ IH]; [reflexivity |].
    cbn [filter]. rewrite (passing_method_not_blocked _ He). exact IH. }
  assert (Hs : forallb (fun log => data_safe log) entries = true).
  { apply forallb_forall. intros e He.
    rewrite Forall_forall in Hent. now destruct (Hent e He). }
  split.
  - eapply Forall_impl; [| exact Hent]. now intros e [He _].
  - unfold generate_security_report, bind, get_self, datetime_now, ret.
    cbn [with_security_log security_log].
    rewrite Hw, Hs. do 2 eexists. split; [reflexivity |].
    repeat split.
Qed.



End SafetyGate.

(** Witness of C1 at the method "delete" after one GET call. *)
Lemma mutating_method_rejected_witness :
  str_in (upper "delete") WriteAccessAnalyzer.blocked_methods = true
  /\ exists msg,
       fst (WriteAccessAnalyzer.safe_read_only_request
              Gate.tr_empty_list Gate.now_numbered "delete" "/api/v1/visitor" []
              (Gate.run_calls Gate.tr_empty_list Gate.now_numbered
                 [Gate.mkCall "GET" "/api/v1/guide" []]
                 (WriteAccessAnalyzer.__init__ Gate.demo_key world0)))
       = Raised (SecurityError msg).
Proof.
  split; [reflexivity |].
  destruct (mutating_method_rejected_before_transport
              Gate.tr_empty_list Gate.now_numbered Gate.demo_key world0
              [Gate.mkCall "GET" "/api/v1/guide" []]
              "delete" "/api/v1/visitor" [] eq_refl)
    as [[msg Heq] _].
  exists msg. rewrite Heq. reflexivity.
Defined.

(** Counterexample to C3 as stated: a DELETE call hands no value back to its
    caller; it ends in an exception. *)
Lemma delete_is_raised_not_returned :
  ~ exists outcome,
      fst (WriteAccessAnalyzer.safe_read_only_request
             Gate.tr_empty_list Gate.now_numbered "DELETE" "/api/v1/visitor" []
             (WriteAccessAnalyzer.__init__ Gate.demo_key world0))
      = Returned outcome.
Proof. intros [outcome H]. vm_compute in H. discriminate. Qed.

(** Witness of C3 (amended) at the method DELETE. *)
Lemma method_outside_allow_list_witness :
  str_in (upper "DELETE") WriteAccessAnalyzer.allowed_methods = false
  /\ exists msg,
       WriteAccessAnalyzer.safe_read_only_request
         Gate.tr_empty_list Gate.now_numbered "DELETE" "/api/v1/visitor" []
         (WriteAccessAnalyzer.__init__ Gate.demo_key world0)
       = (Raised (SecurityError msg),
          (fst (WriteAccessAnalyzer.__init__ Gate.demo_key world0),
           mkWorld [] 0
             (logged (snd (WriteAccessAnalyzer.__init__ Gate.demo_key world0))
                ++ [("ERROR", msg)])%list)).
Proof.
  split; [reflexivity |].
  exact (proj1 (method_outside_allow_list_raises
                  Gate.tr_empty_list Gate.now_numbered
                  "DELETE" "/api/v1/visitor" []
                  (fst (WriteAccessAnalyzer.__init__ Gate.demo_key world0))
                  (snd (WriteAccessAnalyzer.__init__ Gate.demo_key world0))
                  eq_refl)).
Defined.

(** Counterexample to C9 as stated: a call with the method written "get"
    passes the gate and is logged as written, and "get" is not a member of
    the allow-list. *)
Lemma lowercase_method_in_audit_log :
  ~ Forall
      (fun e =>
         str_in (WriteAccessAnalyzer.method e)
           WriteAccessAnalyzer.allowed_methods = true)
      (WriteAccessAnalyzer.security_log
         (fst (Gate.run_calls Gate.tr_empty_list Gate.now_numbered
                 [Gate.mkCall "get" "/api/v1/guide" []]
                 (WriteAccessAnalyzer.__init__ Gate.demo_key world0)))).
Proof.
  intros H. vm_compute in H. inversion H as [| e l Hhd Htl]. discriminate.
Qed.


(** ** The transport call and the probe loop *)

Section ProbeEngine.

Import RealPendoAPIExplorer Probe.
Local Open Scope list_scope.

Variable tr : nat -> request -> reply.

Lemma dict_get_set k k' v d :
  dict_get k (dict_set k' v d)
  = if (k' =? k)%string then Some v else dict_get k d.
Proof.
  induction d as [| [k0 v0] d IH]; cbn.
  - reflexivity.
  - destruct (String.eqb_spec k0 k') as [-> | Hne]; cbn.
    + destruct (k' =? k)%string; reflexivity.
    + rewrite IH.
      destruct (String.eqb_spec k0 k) as [-> | Hne']; [| reflexivity].
      destruct (String.eqb_spec k' k) as [-> | _]; congruence.
Qed.

(** What [test_pendo_endpoint] does: one request, always a dictionary. *)
Lemma test_pendo_endpoint_returns base_url endpoint method data s w :
  let rq := explorer_request s base_url endpoint method data in
  exists out,
    test_pendo_endpoint tr base_url endpoint method data (s, w)
    = (Returned out, (s, mkWorld (net w ++ [rq]) (ticks w) (logged w)))
    /\ dict_get "base_url" out = Some (PyStr base_url)
    /\ dict_get "endpoint" out = Some (PyStr endpoint)
    /\ match tr (List.length (net w)) rq with
       | Responded r =>
           dict_get "success" out = Some (PyBool (status_code r <? 400))
           /\ dict_get "status_code" out = Some (PyInt (status_code r))
           /\ dict_get "error" out = None
       | RequestException e => out = error_outcome base_url endpoint method e
       end.
Proof.
  intros rq.
  unfold test_pendo_endpoint, bind, get_self, send.
  fold (explorer_request s base_url endpoint method data). fold rq.
  destruct (tr (List.length (net w)) rq) as [r | e].
  - destruct (negb (content r =? "")%string).
    + destruct (contains _ _); cbn [andb].
      * destruct (json r); eexists; repeat split.
      * eexists; repeat split.
    + cbn [andb]. eexists; repeat split.
  - eexists; repeat split.
Qed.

(** C4.  [test_pendo_endpoint] always returns a dictionary.  When the service
    responds, its [success] is the truth of [status_code < 400]; when
    [requests] raises a [RequestException], its [success] is false and its
    [error] is the text of the exception. *)
Theorem transport_success_iff_status_below_400 :
  forall base_url endpoint method data s w,
    let rq := explorer_request s base_url endpoint method data in
    exists out w',
      test_pendo_endpoint tr base_url endpoint method data (s, w)
      = (Returned out, (s, w'))
      /\ net w' = net w ++ [rq]
      /\ match tr (List.length (net w)) rq with
         | Responded r =>
             dict_get "success" out = Some (PyBool (status_code r <? 400))
             /\ ((status_code r <? 400) = true <-> status_code r < 400)
             /\ dict_get "status_code" out = Some (PyInt (status_code r))
         | RequestException e =>
             dict_get "success" out = Some (PyBool false)
             /\ dict_get "error" out = Some (PyStr e)
         end.
Proof.
  intros base_url endpoint method data s w rq.
  destruct (test_pendo_endpoint_returns base_url endpoint method data s w)
    as (out & Heq & _ & _ & Hcase).
  fold rq in Heq, Hcase.
  exists out. eexists. split; [exact Heq |]. split; [reflexivity |].
  destruct (tr (List.length (net w)) rq) as [r | e].
  - destruct Hcase as (Hs & Hc & _). repeat split; try assumption;
      apply Z.ltb_lt.
  - subst out. split; reflexivity.
Qed.

(** One pass of the inner loop when the service responds. *)
Lemma probe_one_responded b acc e s w r :
  tr (List.length (net w)) (explorer_request s b e "GET" PyNone) = Responded r ->
  exists out,
    probe_one tr b acc e (s, w)
    = (Returned (acc ++ [out]),
       (s, mkWorld (net w ++ [explorer_request s b e "GET" PyNone])
             (ticks w) (logged w)))
    /\ attempt_of out = attempt (b, e)
    /\ dict_get "success" out = Some (PyBool (status_code r <? 400)).
Proof.
  intros Hrp.
  destruct (test_pendo_endpoint_returns b e "GET" PyNone s w)
    as (out & Heq & Hb & He & Hcase).
  rewrite Hrp in Hcase. destruct Hcase as (Hs & Hc & _).
  exists (dict_set "base_url" (PyStr b) out).
  unfold probe_one. unfold bind at 1. rewrite Heq.
  assert (Hs' : dict_get "success" (dict_set "base_url" (PyStr b) out)
                = Some (PyBool (status_code r <? 400)))
    by (rewrite dict_get_set; exact Hs).
  assert (Hc' : dict_get "status_code" (dict_set "base_url" (PyStr b) out)
                = Some (PyInt (status_code r)))
    by (rewrite dict_get_set; exact Hc).
  split; [| split].
  - unfold bind, getitem. rewrite Hs', Hc'. cbn [ret truthy].
    destruct (status_code r <? 400); reflexivity.
  - unfold attempt_of, attempt. rewrite !dict_get_set, He. reflexivity.
  - exact Hs'.
Qed.

(** One pass of the inner loop when [requests] raises. *)
Lemma probe_one_failed b acc e s w msg :
  tr (List.length (net w)) (explorer_request s b e "GET" PyNone)
  = RequestException msg ->
  probe_one tr b acc e (s, w)
  = (Raised (KeyError "status_code"),
     (s, mkWorld (net w ++ [explorer_request s b e "GET" PyNone])
           (ticks w) (logged w))).
Proof.
  intros Hrp.
  destruct (test_pendo_endpoint_returns b e "GET" PyNone s w)
    as (out & Heq & _ & _ & Hcase).
  rewrite Hrp in Hcase. subst out.
  unfold probe_one. unfold bind at 1. rewrite Heq. reflexivity.
Qed.

(** The inner loop runs to its end when the service responds throughout. *)
Lemma inner_loop_completes b endpoints : forall acc s w,
  responds tr (List.length (net w)) (List.length (net w) + List.length endpoints) ->
  exists outs w',
    for_fold endpoints acc (probe_one tr b) (s, w)
    = (Returned (acc ++ outs), (s, w'))
    /\ List.length (net w') = (List.length (net w) + List.length endpoints)%nat
    /\ map attempt_of outs = map (fun e => attempt (b, e)) endpoints
    /\ Forall (fun o => exists v, dict_get "success" o = Some v) outs.
Proof.
  induction endpoints as [| e es IH]; intros acc s w Hresp.
  - exists [], w. cbn. rewrite app_nil_r, Nat.add_0_r. repeat split. constructor.
  - destruct (Hresp (List.length (net w)) (explorer_request s b e "GET" PyNone))
      as [r Hr]; [cbn; lia |].
    destruct (probe_one_responded b acc e s w r Hr) as (out & Heq & Hat & Hs).
    cbn [for_fold]. unfold bind at 1. rewrite Heq.
    set (w1 := mkWorld (net w ++ [explorer_request s b e "GET" PyNone])
                 (ticks w) (logged w)).
    assert (Hlen : List.length (net w1) = S (List.length (net w)))
      by (cbn; rewrite length_app; cbn; lia).
    destruct (IH (acc ++ [out]) s w1) as (outs & w' & Hrun & Hnet & Hmap & Hall).
    { intros n rq Hn. apply Hresp. rewrite Hlen in Hn. cbn [List.length]. lia. }
    exists (out :: outs), w'. rewrite Hrun, <- app_assoc. cbn [app].
    split; [reflexivity |]. split; [rewrite Hnet, Hlen; cbn; lia |].
    split; [cbn [map]; now rewrite Hat, Hmap |].
    constructor; [eexists; exact Hs | exact Hall].
Qed.

(** The inner loop stops with [KeyError] at the first attempt on which
    [requests] raises. *)
Lemma inner_loop_aborts b endpoints : forall acc s w k msg,
  (k < List.length endpoints)%nat ->
  responds tr (List.length (net w)) (List.length (net w) + k) ->
  fails_at tr (List.length (net w) + k) msg ->
  exists w',
    for_fold endpoints acc (probe_one tr b) (s, w)
    = (Raised (KeyError "status_code"), (s, w')).
Proof.
  induction endpoints as [| e es IH]; intros acc s w k msg Hk Hresp Hfail.
  - cbn in Hk. lia.
  - cbn [for_fold]. unfold bind at 1.
    destruct k as [| k].
    + rewrite Nat.add_0_r in Hfail.
      rewrite (probe_one_failed b acc e s w msg (Hfail _)).
      eexists. reflexivity.
    + destruct (Hresp (List.length (net w)) (explorer_request s b e "GET" PyNone))
        as [r Hr]; [lia |].
      destruct (probe_one_responded b acc e s w r Hr) as (out & Heq & _).
      rewrite Heq.
      set (w1 := mkWorld (net w ++ [explorer_request s b e "GET" PyNone])
                   (ticks w) (logged w)).
      assert (Hlen : List.length (net w1) = S (List.length (net w)))
        by (cbn; rewrite length_app; cbn; lia).
      apply (IH (acc ++ [out]) s w1 k msg).
      * cbn in Hk. lia.
      * intros n rq Hn. apply Hresp. lia.
      * intros rq. rewrite Hlen.
        replace (S (List.length (net w)) + k)%nat
          with (List.length (net w) + S k)%nat by lia.
        apply Hfail.
Qed.

Lemma filter_m_success (l : list pydict) (st : explorer * world) :
  Forall (fun o => exists v, dict_get "success" o = Some v) l ->
  filter_m (fun r => bind (getitem r "success") (fun ok => ret (truthy ok))) l st
  = (Returned (filter get_success l), st).
Proof.
  induction 1 as [| o l [v Hv] _ IH]; [reflexivity |].
  cbn [filter_m filter]. unfold bind at 1. unfold bind at 1.
  unfold getitem at 1. rewrite Hv. cbn [ret].
  unfold bind at 1. rewrite IH. unfold get_success. rewrite Hv. reflexivity.
Qed.

(** One host done: its outcomes are appended to [self.results]. *)
Lemma probe_host_completes endpoints b s w :
  responds tr (List.length (net w)) (List.length (net w) + List.length endpoints) ->
  exists outs s' w',
    probe_host tr endpoints b (s, w) = (Returned tt, (s', w'))
    /\ results s' = results s ++ outs
    /\ api_key s' = api_key s
    /\ List.length (net w') = (List.length (net w) + List.length endpoints)%nat
    /\ map attempt_of outs = map (fun e => attempt (b, e)) endpoints.
Proof.
  intros Hresp.
  destruct (inner_loop_completes b endpoints [] s w Hresp)
    as (outs & w' & Hrun & Hnet & Hmap & Hall).
  cbn [app] in Hrun.
  unfold probe_host. unfold bind at 1. rewrite Hrun.
  unfold bind at 1. rewrite (filter_m_success outs (s, w') Hall).
  exists outs.
  destruct (filter get_success outs) as [| o os];
    [| destruct (working_base_url s) eqn:Hw];
    unfold bind, set_self, ret; cbn; rewrite ?Hw;
    do 2 eexists; (split; [reflexivity |]); repeat split; assumption.
Qed.

Lemma probe_host_aborts endpoints b s w k msg :
  (k < List.length endpoints)%nat ->
  responds tr (List.length (net w)) (List.length (net w) + k) ->
  fails_at tr (List.length (net w) + k) msg ->
  exists w',
    probe_host tr endpoints b (s, w)
    = (Raised (KeyError "status_code"), (s, w')).
Proof.
  intros Hk Hresp Hfail.
  destruct (inner_loop_aborts b endpoints [] s w k msg Hk Hresp Hfail)
    as (w' & Hrun).
  unfold probe_host. unfold bind at 1. rewrite Hrun. eexists. reflexivity.
Qed.

Lemma outer_loop_completes endpoints hosts : forall s w,
  responds tr (List.length (net w))
    (List.length (net w) + List.length hosts * List.length endpoints) ->
  exists outs s' w',
    for_each hosts (probe_host tr endpoints) (s, w) = (Returned tt, (s', w'))
    /\ results s' = results s ++ outs
    /\ map attempt_of outs = map attempt (list_prod hosts endpoints).
Proof.
  induction hosts as [| b bs IH]; intros s w Hresp.
  - exists [], s, w. cbn. rewrite app_nil_r. repeat split.
  - cbn [List.length Nat.mul] in Hresp.
    destruct (probe_host_completes endpoints b s w)
      as (outs & s1 & w1 & Heq & Hres & _ & Hnet & Hmap).
    { intros n rq Hn. apply Hresp. lia. }
    destruct (IH s1 w1) as (outs' & s' & w' & Heq' & Hres' & Hmap').
    { intros n rq Hn. apply Hresp. lia. }
    exists (outs ++ outs'), s', w'.
    cbn [for_each]. unfold bind at 1. rewrite Heq, Heq'.
    split; [reflexivity |]. split.
    + rewrite Hres', Hres, app_assoc. reflexivity.
    + cbn [list_prod]. rewrite !map_app, Hmap, Hmap', map_map. reflexivity.
Qed.

Lemma outer_loop_aborts endpoints hosts : forall s w k msg,
  (k < List.length hosts * List.length endpoints)%nat ->
  responds tr (List.length (net w)) (List.length (net w) + k) ->
  fails_at tr (List.length (net w) + k) msg ->
  exists outs s' w',
    for_each hosts (probe_host tr endpoints) (s, w)
    = (Raised (KeyError "status_code"), (s', w'))
    /\ results s' = results s ++ outs
    /\ (List.length outs <= k)%nat.
Proof.
  induction hosts as [| b bs IH]; intros s w k msg Hk Hresp Hfail.
  - cbn in Hk. lia.
  - cbn [List.length Nat.mul] in Hk. cbn [for_each]. unfold bind at 1.
    destruct (Nat.lt_ge_cases k (List.length endpoints)) as [Hlt | Hge].
    + destruct (probe_host_aborts endpoints b s w k msg Hlt Hresp Hfail)
        as (w' & Heq).
      rewrite Heq. exists [], s, w'. rewrite app_nil_r.
      repeat split. cbn. lia.
    + destruct (probe_host_completes endpoints b s w)
        as (outs & s1 & w1 & Heq & Hres & _ & Hnet & Hmap).
      { intros n rq Hn. apply Hresp. lia. }
      rewrite Heq.
      destruct (IH s1 w1 (k - List.length endpoints)%nat msg)
        as (outs' & s' & w' & Heq' & Hres' & Hlen').
      * lia.
      * intros n rq Hn. apply Hresp. lia.
      * intros rq.
        replace (List.length (net w1) + (k - List.length endpoints))%nat
          with (List.length (net w) + k)%nat by lia.
        apply Hfail.
      * exists (outs ++ outs'), s', w'. rewrite Heq'.
        split; [reflexivity |]. split.
        -- rewrite Hres', Hres, app_assoc. reflexivity.
        -- apply (f_equal (@List.length _)) in Hmap.
           rewrite !length_map in Hmap. rewrite length_app. lia.
Qed.

(** When the service responds to every request of the run, the probe loop
    returns [self.results] extended by one outcome per attempt, hosts outer
    and endpoints inner. *)
Lemma probe_run_completes endpoints s w :
  responds tr (List.length (net w))
    (List.length (net w) + List.length (base_urls s) * List.length endpoints) ->
  exists outs st',
    probe_endpoints tr endpoints (s, w) = (Returned (results s ++ outs), st')
    /\ map attempt_of outs = map attempt (list_prod (base_urls s) endpoints)
    /\ List.length outs = (List.length (base_urls s) * List.length endpoints)%nat.
Proof.
  intros Hresp.
  destruct (outer_loop_completes endpoints (base_urls s) s w Hresp)
    as (outs & s' & w' & Heq & Hres & Hmap).
  exists outs, (s', w').
  unfold probe_endpoints. unfold bind at 1. cbn [get_self].
  unfold get_self at 1. unfold bind at 1. rewrite Heq.
  unfold bind, get_self, ret. rewrite Hres.
  split; [reflexivity |]. split; [exact Hmap |].
  apply (f_equal (@List.length _)) in Hmap.
  rewrite !length_map, length_prod in Hmap. exact Hmap.
Qed.

(** C7.  When [requests] raises on an attempt of a run, the probe loop does
    not go on: formatting the line it prints for the failed attempt looks up
    [result['status_code']], a key the error dictionary lacks, and the
    [KeyError] ends the run.  No list of outcomes is returned, and
    [self.results] has gained fewer outcomes than attempts were made. *)
Theorem transport_failure_aborts_probe_run :
  forall endpoints s w k msg,
    (k < List.length (base_urls s) * List.length endpoints)%nat ->
    responds tr (List.length (net w)) (List.length (net w) + k) ->
    fails_at tr (List.length (net w) + k) msg ->
    exists outs s' w',
      probe_endpoints tr endpoints (s, w)
      = (Raised (KeyError "status_code"), (s', w'))
      /\ results s' = results s ++ outs
      /\ (List.length outs <= k)%nat.
Proof.
  intros endpoints s w k msg Hk Hresp Hfail.
  destruct (outer_loop_aborts endpoints (base_urls s) s w k msg Hk Hresp Hfail)
    as (outs & s' & w' & Heq & Hres & Hlen).
  exists outs, s', w'.
  unfold probe_endpoints. unfold bind at 1. cbn [get_self].
  unfold get_self at 1. unfold bind at 1. rewrite Heq.
  repeat split; assumption.
Qed.

End ProbeEngine.

(** Witness of C7: the network is down from the first attempt on. *)
Lemma transport_failure_aborts_witness :
  (0 < List.length
         (RealPendoAPIExplorer.base_urls
            (RealPendoAPIExplorer.__init__ Gate.demo_key))
       * List.length RealPendoAPIExplorer.api_endpoints)%nat
  /\ Probe.responds Gate.tr_down 0 0
  /\ Probe.fails_at Gate.tr_down 0 "Connection refused"
  /\ fst (RealPendoAPIExplorer.test_real_pendo_endpoints Gate.tr_down
            (RealPendoAPIExplorer.__init__ Gate.demo_key, world0))
     = Raised (KeyError "status_code").
Proof.
  assert (H0 : (0 < List.length
                     (RealPendoAPIExplorer.base_urls
                        (RealPendoAPIExplorer.__init__ Gate.demo_key))
                   * List.length RealPendoAPIExplorer.api_endpoints)%nat)
    by (cbn; lia).
  assert (Hr : Probe.responds Gate.tr_down 0 0)
    by (intros n rq Hn; lia).
  assert (Hf : Probe.fails_at Gate.tr_down 0 "Connection refused")
    by (intros rq; reflexivity).
  split; [exact H0 | split; [exact Hr | split; [exact Hf |]]].
  destruct (transport_failure_aborts_probe_run Gate.tr_down
              RealPendoAPIExplorer.api_endpoints
              (RealPendoAPIExplorer.__init__ Gate.demo_key) world0
              0%nat "Connection refused" H0 Hr Hf)
    as (outs & s' & w' & Heq & _).
  unfold RealPendoAPIExplorer.test_real_pendo_endpoints.
  rewrite Heq. reflexivity.
Defined.

(** The third attempt of a run fails: the two outcomes gathered so far never
    reach [self.results], and three requests have been sent. *)
Example third_attempt_fails :
  let '(x, (s', w')) :=
    RealPendoAPIExplorer.test_real_pendo_endpoints (Probe.tr_fails_from 2)
      (RealPendoAPIExplorer.__init__ Gate.demo_key, world0) in
  x = Raised (KeyError "status_code")
  /\ RealPendoAPIExplorer.results s' = []
  /\ List.length (net w') = 3%nat.
Proof. vm_compute. repeat split. Qed.

(** No attempt fails: 5 hosts times 31 endpoints give 155 outcomes. *)
Example all_attempts_respond :
  match fst (RealPendoAPIExplorer.test_real_pendo_endpoints
               (Probe.tr_fails_from 155)
               (RealPendoAPIExplorer.__init__ Gate.demo_key, world0)) with
  | Returned outcomes => List.length outcomes = 155%nat
  | Raised _ => False
  end.
Proof. vm_compute. reflexivity. Qed.

(** ** The classifier *)

Section Classifier.

Import PendoAccessInvestigator Classify.
Local Open Scope list_scope.

Lemma rate_at_least (c : Z) (s t : nat) :
  (0 < t)%nat ->
  Qle_bool (inject_Z c) (overall_success_rate s t)
  = (c * Z.of_nat t <=? 100 * Z.of_nat s).
Proof.
  intros Ht.
  apply eq_true_iff_eq. rewrite Qle_bool_iff, Z.leb_le.
  unfold overall_success_rate, Qle, Qdiv, Qmult, Qinv, inject_Z.
  destruct (Z.of_nat t) as [| p | p] eqn:Hp; try lia.
  cbn [Qnum Qden]. rewrite !Pos2Z.inj_mul. lia.
Qed.

Lemma access_level_of_rate (s t : nat) :
  (0 < t)%nat ->
  access_level_of (overall_success_rate s t)
  = if 75 * Z.of_nat t <=? 100 * Z.of_nat s then "FULL ACCESS"
    else if 50 * Z.of_nat t <=? 100 * Z.of_nat s then "MODERATE ACCESS"
    else if 25 * Z.of_nat t <=? 100 * Z.of_nat s then "LIMITED ACCESS"
    else "MINIMAL ACCESS".
Proof.
  intros Ht. unfold access_level_of.
  change 75%Q with (inject_Z 75). change 50%Q with (inject_Z 50).
  change 25%Q with (inject_Z 25).
  rewrite !rate_at_least by exact Ht. reflexivity.
Qed.

(** The levels computed with exact rationals and with binary64 floats agree
    for every run of up to 300 results. *)
Lemma float_levels_agree_up_to_300 :
  forallb
    (fun total =>
       forallb
         (fun ok =>
            String.eqb
              (PendoAccessInvestigator.access_level_of_float
                 (PendoAccessInvestigator.overall_success_rate_float ok total))
              (PendoAccessInvestigator.access_level_of
                 (PendoAccessInvestigator.overall_success_rate ok total)))
         (seq 0 (S total)))
    (seq 1 300)
  = true.
Proof. vm_compute. reflexivity. Qed.

(** C5.  For a run with at least one result the access level follows the
    overall success ratio with inclusive lower bounds: FULL from 75%,
    MODERATE from 50% and below 75%, LIMITED from 25% and below 50%, MINIMAL
    below 25%.  Of 100 results, 75 successes give FULL, 74 and 50 MODERATE,
    49 and 25 LIMITED, 24 and 0 MINIMAL, and the same seven levels come out
    when the ratio is computed in binary64 floating point. *)
Theorem verdict_thresholds_inclusive :
  forall self w,
    results self <> [] ->
    let s := Z.of_nat (successes (results self)) in
    let t := Z.of_nat (List.length (results self)) in
    (exists categories access_level,
        analyze_permissions (self, w)
        = (Returned (categories, access_level), (self, w))
        /\ (75 * t <= 100 * s -> access_level = "FULL ACCESS")
        /\ (50 * t <= 100 * s < 75 * t -> access_level = "MODERATE ACCESS")
        /\ (25 * t <= 100 * s < 50 * t -> access_level = "LIMITED ACCESS")
        /\ (100 * s < 25 * t -> access_level = "MINIMAL ACCESS"))
    /\ map (fun ok => verdict_of (run_of ok 100)) [75; 74; 50; 49; 25; 24; 0]%nat
       = map Returned
           ["FULL ACCESS"; "MODERATE ACCESS"; "MODERATE ACCESS";
            "LIMITED ACCESS"; "LIMITED ACCESS";
            "MINIMAL ACCESS"; "MINIMAL ACCESS"]
    /\ map (fun ok => access_level_of_float (overall_success_rate_float ok 100))
         [75; 74; 50; 49; 25; 24; 0]%nat
       = ["FULL ACCESS"; "MODERATE ACCESS"; "MODERATE ACCESS";
          "LIMITED ACCESS"; "LIMITED ACCESS";
          "MINIMAL ACCESS"; "MINIMAL ACCESS"].
Proof.
  intros self w Hne s t.
  assert (Ht : (0 < List.length (results self))%nat).
  { destruct (results self); [congruence | cbn; lia]. }
  split; [| split; [vm_compute; reflexivity | vm_compute; reflexivity]].
  unfold analyze_permissions, bind, get_self.
  destruct (Nat.eqb_spec (List.length (results self)) 0) as [H0 | _]; [lia |].
  unfold ret. do 2 eexists. split; [reflexivity |].
  rewrite (access_level_of_rate _ _ Ht).
  fold (successes (results self)). fold s. fold t.
  repeat split; intros H;
    repeat match goal with
           | |- context [?a <=? ?b] => destruct (Z.leb_spec a b)
           end;
    try reflexivity; lia.
Qed.

End Classifier.

(** ** The report builders *)

Section Reports.

Local Open Scope list_scope.

Variable now : nat -> string.
Variable client_get_data_overview : world -> result pyvalue * world.
Variable client_get_api_status : world -> result pyvalue * world.

Lemma analyze_permissions_total i w :
  PendoAccessInvestigator.analyze_permissions (i, w)
  = (match PendoAccessInvestigator.results i with
     | [] => Raised ZeroDivisionError
     | _ :: _ =>
         Returned
           (fold_left
              (fun categories result =>
                 PendoAccessInvestigator.count_category
                   (PendoAccessInvestigator.category result)
                   (PendoAccessInvestigator.success result) categories)
              (PendoAccessInvestigator.results i) [],
            PendoAccessInvestigator.access_level_of
              (PendoAccessInvestigator.overall_success_rate
                 (Classify.successes (PendoAccessInvestigator.results i))
                 (List.length (PendoAccessInvestigator.results i))))
     end, (i, w)).
Proof.
  unfold PendoAccessInvestigator.analyze_permissions, bind, get_self.
  destruct (PendoAccessInvestigator.results i); reflexivity.
Qed.

(** C8 (amended).  Two calls in a row of a report builder on the same
    outcomes leave the instance as it was and give reports that are equal
    field by field except for what each call reads afresh from outside: the
    timestamp, taken from the clock, and, in the investigation report,
    [api_status] and [data_overview], fetched through the client.  (On an
    investigator without results both calls raise [ZeroDivisionError].) *)
Theorem report_rebuild_differs_only_in_fresh_reads :
  forall all_results e i w,
    (let '(x1, (e1, w1)) :=
       RealPendoAPIExplorer.generate_comprehensive_report now all_results (e, w) in
     let '(x2, (e2, _)) :=
       RealPendoAPIExplorer.generate_comprehensive_report now all_results (e1, w1) in
     e1 = e /\ e2 = e
     /\ exists r1,
         x1 = Returned r1
         /\ RealPendoAPIExplorer.exploration_timestamp r1 = now (ticks w)
         /\ x2 = Returned (Reporter.with_timestamp r1 (now (S (ticks w)))))
    /\
    (let '(x1, (i1, w1)) :=
       PendoAccessInvestigator.generate_investigation_report
         now client_get_data_overview client_get_api_status (i, w) in
     let '(x2, (i2, _)) :=
       PendoAccessInvestigator.generate_investigation_report
         now client_get_data_overview client_get_api_status (i1, w1) in
     i1 = i /\ i2 = i
     /\ match x1, x2 with
        | Returned r1, Returned r2 =>
            r2 = Classify.with_fetched r1
                   (PendoAccessInvestigator.investigation_timestamp r2)
                   (PendoAccessInvestigator.api_status r2)
                   (PendoAccessInvestigator.data_overview r2)
        | Raised e1, Raised e2 =>
            e1 = ZeroDivisionError /\ e2 = ZeroDivisionError
            /\ PendoAccessInvestigator.results i = []
        | _, _ => False
        end).
Proof.
  intros all_results e i w. split.
  - unfold RealPendoAPIExplorer.generate_comprehensive_report,
      bind, datetime_now, get_self, ret.
    cbn [ticks net logged]. repeat split.
    eexists. repeat split.
  - unfold PendoAccessInvestigator.generate_investigation_report,
      PendoAccessInvestigator.call_client,
      bind, try_except, datetime_now, get_self, ret.
    destruct (PendoAccessInvestigator.results i) as [| r rs] eqn:Hres;
      repeat
        (match goal with
         | |- context [client_get_data_overview ?x] =>
             destruct (client_get_data_overview x) as [[? | ?] ?]
         | |- context [client_get_api_status ?x] =>
             destruct (client_get_api_status x) as [[? | ?] ?]
         | |- context [PendoAccessInvestigator.analyze_permissions ?x] =>
             rewrite (analyze_permissions_total _ _), ?Hres
         end; cbn [ticks net logged fst snd]);
      repeat split.
Qed.

End Reports.

(** Witness of C5: three successes out of four are exactly 75%. *)
Lemma verdict_thresholds_witness :
  PendoAccessInvestigator.results
    (PendoAccessInvestigator.mkInvestigator Gate.demo_key "https://app.pendo.io"
       (Classify.run_of 3 4))
  <> []
  /\ exists categories,
       PendoAccessInvestigator.analyze_permissions
         (PendoAccessInvestigator.mkInvestigator Gate.demo_key
            "https://app.pendo.io" (Classify.run_of 3 4), world0)
       = (Returned (categories, "FULL ACCESS"),
          (PendoAccessInvestigator.mkInvestigator Gate.demo_key
             "https://app.pendo.io" (Classify.run_of 3 4), world0)).
Proof.
  assert (Hne : PendoAccessInvestigator.results
                  (PendoAccessInvestigator.mkInvestigator Gate.demo_key
                     "https://app.pendo.io" (Classify.run_of 3 4)) <> [])
    by discriminate.
  split; [exact Hne |].
  destruct (verdict_thresholds_inclusive _ world0 Hne)
    as [(categories & access_level & Heq & Hfull & _) _].
  exists categories. rewrite Heq, Hfull; [reflexivity |].
  vm_compute. discriminate.
Defined.

(** Counterexample to C8 as stated: built twice in a row on the same
    outcomes, the report carries two different timestamps. *)
Lemma rebuilt_report_has_new_timestamp :
  let outcomes :=
    [[Probe.error_outcome "https://app.pendo.io" "/api/v1/status" "GET"
        "Connection refused"]] in
  let '(x1, st1) :=
    RealPendoAPIExplorer.generate_comprehensive_report Gate.now_numbered
      outcomes (RealPendoAPIExplorer.__init__ Gate.demo_key, world0) in
  let '(x2, _) :=
    RealPendoAPIExplorer.generate_comprehensive_report Gate.now_numbered
      outcomes st1 in
  x1 <> x2.
Proof. vm_compute. intros H. discriminate H. Qed.

(** ** The read phases of the analyzer *)

Section ReadPhases.

Import WriteAccessAnalyzer Gate AnalyzerPhases.
Local Open Scope list_scope.

Variable tr : nat -> request -> reply.
Variable now : nat -> string.

(** A call that passes the gate, with the audit entry it leaves. *)
Lemma gate_allowed_entry m ep kw s w :
  str_in (upper m) allowed_methods = true ->
  let rp := tr (List.length (net w)) (gate_request s m ep kw) in
  exists entry w',
    safe_read_only_request tr now m ep kw (s, w)
    = (Returned (fetched rp),
       (with_security_log s (security_log s ++ [entry]), w'))
    /\ method entry = m
    /\ endpoint entry = ep
    /\ success entry = fetch_success rp
    /\ data_safe entry = true
    /\ net w' = net w ++ [gate_request s m ep kw].
Proof.
  intros Ha rp.
  unfold safe_read_only_request.
  rewrite (allowed_not_blocked _ Ha), Ha. cbn [negb].
  unfold bind at 1 2 3. unfold get_self, logging_emit, send.
  cbn [net ticks logged]. fold (gate_request s m ep kw). fold rp.
  unfold fetched, fetch_success, with_security_log.
  destruct rp as [r | e].
  - destruct (existsb _ _).
    + destruct (contains _ _).
      * destruct (json r); cbn; do 2 eexists; repeat split; reflexivity.
      * cbn; do 2 eexists; repeat split; reflexivity.
    + cbn; do 2 eexists; repeat split; reflexivity.
  - cbn; do 2 eexists; repeat split; reflexivity.
Qed.



























(** X3.  In the baseline, enhanced-access and permission phases an endpoint
    counts as accessible exactly when the value the guarded GET returned is
    truthy.  So a request answered 200, 201 or 202 with a JSON body that is
    falsy (an empty list or object, zero, the empty string, false or null) is
    recorded as failed ("No data returned", "BLOCKED") although its audit
    entry says success; these are the only replies on which the two records
    disagree. *)
Theorem read_phase_entry_needs_truthy_data :
  forall ep s w,
    let rp := tr (List.length (net w)) (gate_request s "GET" ep []) in
    (exists d log_e w',
        baseline_entry tr now ep (s, w)
        = (Returned (PyDict d),
           (with_security_log s (security_log s ++ [log_e]), w'))
        /\ dict_get "success" d = Some (PyBool (truthy (fetched rp)))
        /\ success log_e = fetch_success rp)
    /\ (exists d log_e w',
          enhanced_entry tr now ep (s, w)
          = (Returned (PyDict d),
             (with_security_log s (security_log s ++ [log_e]), w'))
          /\ dict_get "success" d = Some (PyBool (truthy (fetched rp)))
          /\ success log_e = fetch_success rp)
    /\ (exists d log_e w',
          permission_entry tr now ep (s, w)
          = (Returned (PyDict d),
             (with_security_log s (security_log s ++ [log_e]), w'))
          /\ dict_get "new_access" d
             = Some (PyStr (if truthy (fetched rp) then "AVAILABLE" else "BLOCKED"))
          /\ success log_e = fetch_success rp)
    /\ (fetch_success rp = true /\ truthy (fetched rp) = false
        <-> exists r v,
              rp = Responded r
              /\ existsb (Z.eqb (status_code r)) [200; 201; 202] = true
              /\ contains "application/json"
                   (headers_get "content-type" "" (headers r)) = true
              /\ json r = Some v
              /\ truthy v = false).
Proof.
  intros ep s w rp.
  destruct (gate_allowed_entry "GET" ep [] s w eq_refl)
    as (log_e & w' & Heq & _ & _ & Hs & _). fold rp in Heq, Hs.
  split; [| split; [| split]].
  - unfold baseline_entry, try_except, bind. rewrite Heq.
    destruct (truthy (fetched rp)); do 3 eexists; repeat split; exact Hs.
  - unfold enhanced_entry, try_except, bind. rewrite Heq.
    destruct (truthy (fetched rp)); do 3 eexists; repeat split; exact Hs.
  - unfold permission_entry, try_except, bind. rewrite Heq.
    destruct (truthy (fetched rp)); do 3 eexists; repeat split; exact Hs.
  - unfold fetched, fetch_success. destruct rp as [r | e].
    + destruct (existsb (Z.eqb (status_code r)) [200; 201; 202]) eqn:Hst.
      * destruct (contains "application/json"
                    (headers_get "content-type" "" (headers r))) eqn:Hct.
        -- destruct (json r) as [v |] eqn:Hj.
           ++ split.
              ** intros [_ Hv]. exists r, v. repeat split; assumption.
              ** intros (r' & v' & Hr & _ & _ & Hj' & Hv').
                 injection Hr as <-. rewrite Hj in Hj'. injection Hj' as <-.
                 split; [reflexivity | exact Hv'].
           ++ split.
              ** intros [_ Hv]. discriminate.
              ** intros (r' & v' & Hr & _ & _ & Hj' & _).
                 injection Hr as <-. congruence.
        -- split.
           ++ intros [_ Hv]. discriminate.
           ++ intros (r' & v' & Hr & _ & Hct' & _).
              injection Hr as <-. congruence.
      * split.
        -- intros [Hf _]. discriminate.
        -- intros (r' & v' & Hr & Hst' & _). injection Hr as <-. congruence.
    + split.
      * intros [Hf _]. discriminate.
      * intros (r' & v' & Hr & _). discriminate.
Qed.

End ReadPhases.

(** ** Success criteria and report figures *)

Section Figures.

Local Open Scope list_scope.

Variable tr : nat -> request -> reply.
Variable now : nat -> string.

Lemma percentage_bounds (s t : nat) :
  (s <= t)%nat -> (0 < t)%nat ->
  (0 <= inject_Z (Z.of_nat s) / inject_Z (Z.of_nat t) * 100
   /\ inject_Z (Z.of_nat s) / inject_Z (Z.of_nat t) * 100 <= 100)%Q.
Proof.
  intros Hst Ht.
  unfold Qle, Qdiv, Qmult, Qinv, inject_Z.
  destruct (Z.of_nat t) as [| p | p] eqn:Hp; try lia.
  cbn [Qnum Qden]. rewrite !Pos2Z.inj_mul. split; nia.
Qed.

(** X4.  The gate and the transport call judge the same response differently:
    a response with a status below 400 other than 200, 201 and 202 (204 or
    301, say) makes [safe_read_only_request] log a failed operation and
    return [None], while [test_pendo_endpoint] reports it with [success]
    true.  Whenever the gate logs a success, the status is below 400. *)
Theorem gate_is_stricter_than_transport :
  forall r,
    status_code r < 400 ->
    existsb (Z.eqb (status_code r)) [200; 201; 202] = false ->
    (forall m ep kw s w,
        str_in (upper m) WriteAccessAnalyzer.allowed_methods = true ->
        tr (List.length (net w)) (Gate.gate_request s m ep kw) = Responded r ->
        exists entry w',
          WriteAccessAnalyzer.safe_read_only_request tr now m ep kw (s, w)
          = (Returned PyNone,
             (Gate.with_security_log s
                (WriteAccessAnalyzer.security_log s ++ [entry]), w'))
          /\ WriteAccessAnalyzer.success entry = false)
    /\ (forall b e m d s w,
          tr (List.length (net w)) (Probe.explorer_request s b e m d)
          = Responded r ->
          exists out st',
            RealPendoAPIExplorer.test_pendo_endpoint tr b e m d (s, w)
            = (Returned out, st')
            /\ dict_get "success" out = Some (PyBool true))
    /\ (forall r',
          Gate.fetch_success (Responded r') = true -> status_code r' < 400).
Proof.
  intros r Hlt Hnot. split; [| split].
  - intros m ep kw s w Ha Hrp.
    destruct (gate_allowed tr now m ep kw s w Ha)
      as (entry & w' & Heq & _ & Hs & _).
    rewrite Hrp in Heq, Hs. cbn [Gate.fetched Gate.fetch_success] in Heq, Hs.
    rewrite Hnot in Heq, Hs. exists entry, w'. split; assumption.
  - intros b e m d s w Hrp.
    destruct (test_pendo_endpoint_returns tr b e m d s w)
      as (out & Heq & _ & _ & Hcase).
    rewrite Hrp in Hcase. destruct Hcase as (Hs & _).
    exists out. eexists. split; [exact Heq |].
    rewrite Hs. apply Z.ltb_lt in Hlt. now rewrite Hlt.
  - intros r' H. cbn in H. rewrite orb_false_r in H.
    repeat (apply orb_true_iff in H as [H | H]); apply Z.eqb_eq in H; lia.
Qed.

(** X5.  [generate_security_report] never raises and leaves the analyzer as
    it is.  Its figures are consistent: [total_operations] and
    [security_log_entries] are the length of the audit log, the successful
    and the write-attempt counts do not exceed it, the success rate lies
    between 0 and 100 and is 0 for an empty log (no division by zero), and
    the status is VERIFIED SAFE exactly when no logged method is a blocked
    one and every entry is marked data-safe. *)
Theorem security_report_figures :
  forall s w,
    exists rep w',
      WriteAccessAnalyzer.generate_security_report now (s, w)
      = (Returned rep, (s, w'))
      /\ WriteAccessAnalyzer.total_operations rep
         = List.length (WriteAccessAnalyzer.security_log s)
      /\ WriteAccessAnalyzer.security_log_entries rep
         = WriteAccessAnalyzer.total_operations rep
      /\ (WriteAccessAnalyzer.successful_operations rep
          <= WriteAccessAnalyzer.total_operations rep)%nat
      /\ (WriteAccessAnalyzer.write_attempts_blocked rep
          <= WriteAccessAnalyzer.total_operations rep)%nat
      /\ (0 <= WriteAccessAnalyzer.success_rate rep
          /\ WriteAccessAnalyzer.success_rate rep <= 100)%Q
      /\ (WriteAccessAnalyzer.security_log s = [] ->
          WriteAccessAnalyzer.success_rate rep = 0%Q)
      /\ (WriteAccessAnalyzer.safety_status rep = "VERIFIED SAFE"
          <-> WriteAccessAnalyzer.write_attempts_blocked rep = 0%nat
              /\ WriteAccessAnalyzer.data_safety_verified rep = true).
Proof.
  intros s w.
  unfold WriteAccessAnalyzer.generate_security_report,
    bind, get_self, datetime_now, ret.
  do 2 eexists. split; [reflexivity |].
  cbn [WriteAccessAnalyzer.total_operations
       WriteAccessAnalyzer.security_log_entries
       WriteAccessAnalyzer.successful_operations
       WriteAccessAnalyzer.write_attempts_blocked
       WriteAccessAnalyzer.success_rate
       WriteAccessAnalyzer.data_safety_verified
       WriteAccessAnalyzer.safety_status].
  split; [reflexivity |]. split; [reflexivity |].
  split; [apply filter_length_le |]. split; [apply filter_length_le |].
  split; [| split].
  - destruct (Nat.ltb_spec 0 (List.length (WriteAccessAnalyzer.security_log s)))
      as [Hpos | _].
    + apply percentage_bounds; [apply filter_length_le | exact Hpos].
    + split; [apply Qle_refl | discriminate].
  - intros ->. reflexivity.
  - destruct (forallb _ _); cbn [andb].
    + destruct (Nat.eqb_spec
                  (List.length
                     (filter (fun log =>
                                str_in (WriteAccessAnalyzer.method log)
                                  WriteAccessAnalyzer.blocked_methods)
                        (WriteAccessAnalyzer.security_log s))) 0) as [H0 | Hn].
      * tauto.
      * split; [discriminate | tauto].
    + split; [discriminate | intros [_ H]; discriminate].
Qed.

End Figures.

(** Witness of X4: a response 204 No Content. *)
Lemma gate_is_stricter_witness :
  let r := mkResponse 204 "No Content" [] "" "" None in
  status_code r < 400
  /\ existsb (Z.eqb (status_code r)) [200; 201; 202] = false
  /\ exists out st',
       RealPendoAPIExplorer.test_pendo_endpoint (fun _ _ => Responded r)
         "https://app.pendo.io" "/api/v1/guide" "GET" PyNone
         (RealPendoAPIExplorer.__init__ Gate.demo_key, world0)
       = (Returned out, st')
       /\ dict_get "success" out = Some (PyBool true).
Proof.
  intros r.
  assert (H1 : status_code r < 400) by (cbn; lia).
  assert (H2 : existsb (Z.eqb (status_code r)) [200; 201; 202] = false)
    by reflexivity.
  split; [exact H1 | split; [exact H2 |]].
  exact (proj1 (proj2 (gate_is_stricter_than_transport
                         (fun _ _ => Responded r) Gate.now_numbered r H1 H2))
           "https://app.pendo.io" "/api/v1/guide" "GET" PyNone
           (RealPendoAPIExplorer.__init__ Gate.demo_key) world0 eq_refl).
Defined.

(** ** The permission table and the access level *)

Section PermissionTable.

Import PendoAccessInvestigator Classify Breakdown.
Local Open Scope list_scope.

Variable now : nat -> string.
Variable client_get_data_overview : world -> result pyvalue * world.
Variable client_get_api_status : world -> result pyvalue * world.

Lemma lookup_count_category c c' ok t :
  lookup c (count_category c' ok t)
  = if (c' =? c)%string then Some (bump ok (lookup c t)) else lookup c t.
Proof.
  induction t as [| [c0 st] t IH]; cbn.
  - destruct (c' =? c)%string; reflexivity.
  - destruct (String.eqb_spec c0 c') as [-> | Hne]; cbn.
    + destruct (c' =? c)%string; reflexivity.
    + rewrite IH. destruct (String.eqb_spec c0 c) as [-> | _]; [| reflexivity].
      destruct (String.eqb_spec c' c) as [-> | _]; [congruence | reflexivity].
Qed.

Lemma keys_count_category c ok t :
  map fst (count_category c ok t)
  = if str_in c (map fst t) then map fst t else map fst t ++ [c].
Proof.
  unfold str_in. induction t as [| [c0 st] t IH]; cbn; [reflexivity |].
  rewrite (String.eqb_sym c c0).
  destruct (c0 =? c)%string; cbn; [reflexivity |].
  rewrite IH. destruct (existsb (String.eqb c) (map fst t)); reflexivity.
Qed.

Lemma nodup_count_category c ok t :
  NoDup (map fst t) -> NoDup (map fst (count_category c ok t)).
Proof.
  intros Hnd. rewrite keys_count_category.
  destruct (str_in c (map fst t)) eqn:Hin; [exact Hnd |].
  apply NoDup_app; [exact Hnd | repeat constructor; cbn; tauto |].
  intros x Hx [Heq | []]. subst x.
  assert (str_in c (map fst t) = true); [| congruence].
  apply existsb_exists. exists c. split; [exact Hx | apply String.eqb_refl].
Qed.

Lemma sums_count_category c ok t :
  sum_total (count_category c ok t) = S (sum_total t)
  /\ sum_success (count_category c ok t)
     = ((if ok then 1 else 0) + sum_success t)%nat.
Proof.
  unfold sum_total, sum_success.
  induction t as [| [c0 st] t [IHt IHs]]; cbn.
  - destruct ok; split; reflexivity.
  - destruct (c0 =? c)%string; cbn; [destruct ok; split; lia |].
    rewrite IHt, IHs. split; lia.
Qed.

Lemma sound_count_category c ok t :
  Forall (fun cs => 1 <= stats_total (snd cs)
                    /\ stats_success (snd cs) <= stats_total (snd cs))%nat t ->
  Forall (fun cs => 1 <= stats_total (snd cs)
                    /\ stats_success (snd cs) <= stats_total (snd cs))%nat
    (count_category c ok t).
Proof.
  induction 1 as [| [c0 st] t [H1 H2] Ht IH]; cbn.
  - constructor; [destruct ok; cbn; lia | constructor].
  - destruct (c0 =? c)%string.
    + constructor; [cbn in *; destruct ok; lia | exact Ht].
    + constructor; [split; assumption | exact IH].
Qed.

(** The table after the loop, whatever table it started from. *)
Lemma fold_count_category rs : forall t,
  let t' := fold_left
              (fun categories result =>
                 count_category (category result) (success result) categories)
              rs t in
  (NoDup (map fst t) -> NoDup (map fst t'))
  /\ sum_total t' = (sum_total t + List.length rs)%nat
  /\ sum_success t' = (sum_success t + successes rs)%nat
  /\ (Forall (fun cs => 1 <= stats_total (snd cs)
                        /\ stats_success (snd cs) <= stats_total (snd cs))%nat t ->
      Forall (fun cs => 1 <= stats_total (snd cs)
                        /\ stats_success (snd cs) <= stats_total (snd cs))%nat t')
  /\ forall c,
       lookup c t'
       = fold_left (fun st r => Some (bump (success r) st))
           (in_category c rs) (lookup c t).
Proof.
  induction rs as [| r rs IH]; intros t; cbn zeta.
  - cbn. repeat split; auto.
  - cbn [fold_left].
    destruct (IH (count_category (category r) (success r) t))
      as (Hnd & Ht & Hs & Hsound & Hl).
    destruct (sums_count_category (category r) (success r) t) as [Ht1 Hs1].
    split; [| split; [| split; [| split]]].
    + intros H. apply Hnd. now apply nodup_count_category.
    + rewrite Ht, Ht1. cbn [List.length]. lia.
    + rewrite Hs, Hs1. unfold successes. cbn [filter].
      destruct (success r); cbn [List.length]; lia.
    + intros H. apply Hsound. now apply sound_count_category.
    + intros c. rewrite Hl, lookup_count_category.
      unfold in_category. cbn [filter].
      destruct (category r =? c)%string; reflexivity.
Qed.

Lemma fold_bump l : forall st,
  fold_left (fun st r => Some (bump (success r) st)) l (Some st)
  = Some (mkStats (stats_success st + successes l) (stats_total st + List.length l)).
Proof.
  induction l as [| r l IH]; intros st; cbn [fold_left].
  - destruct st. cbn. now rewrite !Nat.add_0_r.
  - cbn [bump]. rewrite IH. unfold successes. cbn [filter stats_success stats_total].
    destruct (success r); cbn [List.length]; f_equal; f_equal; lia.
Qed.

Lemma lookup_table rs c :
  lookup c (table rs)
  = match in_category c rs with
    | [] => None
    | _ :: _ =>
        Some (mkStats (successes (in_category c rs))
                (List.length (in_category c rs)))
    end.
Proof.
  unfold table.
  destruct (fold_count_category rs []) as (_ & _ & _ & _ & Hl).
  rewrite Hl. cbn [lookup].
  destruct (in_category c rs) as [| r l]; [reflexivity |].
  cbn [fold_left bump]. rewrite fold_bump.
  unfold successes. cbn [filter stats_success stats_total].
  destruct (success r); cbn [List.length]; f_equal; f_equal; lia.
Qed.

Lemma analyze_permissions_table i w :
  analyze_permissions (i, w)
  = (match results i with
     | [] => Raised ZeroDivisionError
     | _ :: _ =>
         Returned
           (table (results i),
            access_level_of
              (overall_success_rate (successes (results i))
                 (List.length (results i))))
     end, (i, w)).
Proof.
  unfold analyze_permissions, bind, get_self.
  destruct (results i); reflexivity.
Qed.

(** X6.  The table [analyze_permissions] returns has one key per category
    that occurs among the results, no key twice, and under each key the
    number of results of that category and the number of them that
    succeeded; a category without results has no key. *)
Theorem permission_table_counts_per_category :
  forall i w,
    results i <> [] ->
    exists categories access_level,
      analyze_permissions (i, w) = (Returned (categories, access_level), (i, w))
      /\ NoDup (map fst categories)
      /\ forall c,
           lookup c categories
           = match in_category c (results i) with
             | [] => None
             | _ :: _ =>
                 Some (mkStats (successes (in_category c (results i)))
                         (List.length (in_category c (results i))))
             end.
Proof.
  intros i w Hne. rewrite analyze_permissions_table.
  destruct (results i) as [| r rs] eqn:Hres; [congruence |].
  do 2 eexists. split; [reflexivity |]. split.
  - destruct (fold_count_category (r :: rs) []) as (Hnd & _).
    apply Hnd. constructor.
  - intros c. apply lookup_table.
Qed.

Lemma investigation_report_fields i w :
  results i <> [] ->
  exists r w',
    generate_investigation_report now client_get_data_overview
      client_get_api_status (i, w)
    = (Returned r, (i, w'))
    /\ investigation_timestamp r = now (ticks w)
    /\ permission_breakdown r = table (results i)
    /\ total_operations_tested r = List.length (results i)
    /\ successful_operations r = successes (results i)
    /\ detailed_results r = results i
    /\ access_level r
       = access_level_of
           (overall_success_rate (successes (results i))
              (List.length (results i)))
    /\ capabilities_summary r
       = mkCapabilities
           (count_where
              (fun r => in_operation "read" r
                        || str_in (category r)
                             ["Guides"; "Features"; "Pages"; "Reports"; "Metadata"])
              (results i))
           (count_where
              (fun r => in_operation "create" r || in_operation "update" r
                        || in_operation "write" r)
              (results i))
           (count_where
              (fun r => str_in (category r)
                          ["Analytics"; "Events"; "Bulk Operations"])
              (results i))
           (count_where (fun r => (category r =? "Delete")%string) (results i))
           (count_where (fun r => (category r =? "Account")%string) (results i)).
Proof.
  intros Hne.
  unfold generate_investigation_report, call_client,
    bind, try_except, datetime_now, get_self, ret.
  destruct (results i) as [| r0 rs] eqn:Hres; [congruence |].
  repeat
    (match goal with
     | |- context [client_get_data_overview ?x] =>
         destruct (client_get_data_overview x) as [[? | ?] ?]
     | |- context [client_get_api_status ?x] =>
         destruct (client_get_api_status x) as [[? | ?] ?]
     | |- context [analyze_permissions ?x] =>
         rewrite (analyze_permissions_table _ _), ?Hres
     end; cbn [ticks net logged fst snd]);
    do 2 eexists; (split; [reflexivity |]); rewrite ?Hres; repeat split.
Qed.

Lemma investigation_report_raises i w :
  results i = [] ->
  exists w',
    generate_investigation_report now client_get_data_overview
      client_get_api_status (i, w)
    = (Raised ZeroDivisionError, (i, w')).
Proof.
  intros Hres.
  unfold generate_investigation_report, call_client,
    bind, try_except, datetime_now, get_self, ret.
  repeat
    (match goal with
     | |- context [client_get_data_overview ?x] =>
         destruct (client_get_data_overview x) as [[? | ?] ?]
     | |- context [client_get_api_status ?x] =>
         destruct (client_get_api_status x) as [[? | ?] ?]
     | |- context [analyze_permissions ?x] =>
         rewrite (analyze_permissions_table _ _), ?Hres
     end; cbn [ticks net logged fst snd]);
    eexists; reflexivity.
Qed.

(** X7.  In the investigation report the permission breakdown adds up: the
    totals of its categories sum to [total_operations_tested], their
    successes to [successful_operations], every category has at least one
    result and no more successes than results (so the rate printed per
    category never divides by zero), and [detailed_results] is the list of
    results itself. *)
Theorem investigation_report_adds_up :
  forall i w,
    results i <> [] ->
    exists r w',
      generate_investigation_report now client_get_data_overview
        client_get_api_status (i, w)
      = (Returned r, (i, w'))
      /\ sum_total (permission_breakdown r) = total_operations_tested r
      /\ sum_success (permission_breakdown r) = successful_operations r
      /\ (successful_operations r <= total_operations_tested r)%nat
      /\ Forall (fun cs => 1 <= stats_total (snd cs)
                           /\ stats_success (snd cs) <= stats_total (snd cs))%nat
           (permission_breakdown r)
      /\ detailed_results r = results i.
Proof.
  intros i w Hne.
  destruct (investigation_report_fields i w Hne)
    as (r & w' & Heq & _ & Hpb & Htot & Hsucc & Hdet & _).
  exists r, w'. split; [exact Heq |].
  rewrite Hpb, Htot, Hsucc. unfold table.
  destruct (fold_count_category (results i) []) as (_ & Ht & Hs & Hsound & _).
  split; [exact Ht |]. split; [exact Hs |].
  split; [apply filter_length_le |]. split; [apply Hsound; constructor | exact Hdet].
Qed.

Lemma disjoint_counts (rs : list logged_result) :
  (count_where (fun r => str_in (category r)
                           ["Analytics"; "Events"; "Bulk Operations"]) rs
   + count_where (fun r => (category r =? "Delete")%string) rs
   + count_where (fun r => (category r =? "Account")%string) rs
   <= successes rs)%nat.
Proof.
  unfold count_where, successes.
  induction rs as [| r rs IH]; [cbn; lia |].
  cbn [filter]. destruct (success r); cbn [andb]; [| exact IH].
  destruct (str_in (category r) ["Analytics"; "Events"; "Bulk Operations"]) eqn:H1,
           (category r =? "Delete")%string eqn:H2,
           (category r =? "Account")%string eqn:H3;
    cbn [List.length]; try lia; exfalso;
    try (apply String.eqb_eq in H2; rewrite H2 in *; discriminate);
    try (apply String.eqb_eq in H3; rewrite H3 in *; discriminate).
Qed.

Lemma count_where_le p (rs : list logged_result) :
  (count_where p rs <= successes rs)%nat.
Proof.
  unfold count_where, successes.
  induction rs as [| x l IH]; [cbn; lia |].
  cbn [filter]. destruct (success x); cbn [andb]; [| exact IH].
  destruct (p x); cbn [List.length]; lia.
Qed.

(** X8.  In the capabilities summary no count exceeds
    [successful_operations], and the three counts taken by category
    (management, delete, account) never count a result twice: their sum does
    not exceed [successful_operations] either. *)
Theorem capabilities_summary_bounds :
  forall i w,
    results i <> [] ->
    exists r w',
      generate_investigation_report now client_get_data_overview
        client_get_api_status (i, w)
      = (Returned r, (i, w'))
      /\ (read_access (capabilities_summary r) <= successful_operations r)%nat
      /\ (write_access (capabilities_summary r) <= successful_operations r)%nat
      /\ (management_access (capabilities_summary r)
          + delete_access (capabilities_summary r)
          + account_access (capabilities_summary r)
          <= successful_operations r)%nat.
Proof.
  intros i w Hne.
  destruct (investigation_report_fields i w Hne)
    as (r & w' & Heq & _ & _ & _ & Hsucc & _ & _ & Hcap).
  exists r, w'. split; [exact Heq |].
  rewrite Hcap, Hsucc.
  cbn [read_access write_access management_access delete_access account_access].
  split; [apply count_where_le |]. split; [apply count_where_le |].
  apply disjoint_counts.
Qed.

Lemma log_result_appends category operation ok details data i w :
  exists r,
    log_result now category operation ok details data (i, w)
    = (Returned r,
       (mkInvestigator (api_key i) (base_url i) (results i ++ [r]),
        mkWorld (net w) (S (ticks w)) (logged w)))
    /\ success r = ok
    /\ PendoAccessInvestigator.category r = category.
Proof.
  unfold log_result, bind, datetime_now, set_self, ret.
  eexists. split; [reflexivity |]. split; reflexivity.
Qed.

(** X9.  Without a logged result there is no verdict: [analyze_permissions]
    raises [ZeroDivisionError] exactly when [self.results] is empty, and so
    does [generate_investigation_report], whatever the client answers; after
    any call of [log_result] the analysis returns. *)
Theorem no_results_no_verdict :
  forall i w,
    (results i = []
     <-> fst (analyze_permissions (i, w)) = Raised ZeroDivisionError)
    /\ (results i = []
        <-> exists st',
              generate_investigation_report now client_get_data_overview
                client_get_api_status (i, w)
              = (Raised ZeroDivisionError, st'))
    /\ forall category operation ok details data,
         exists verdict st',
           bind (log_result now category operation ok details data)
             (fun _ => analyze_permissions) (i, w)
           = (Returned verdict, st').
Proof.
  intros i w. split; [| split].
  - rewrite analyze_permissions_table.
    destruct (results i); cbn; split; congruence.
  - split.
    + intros Hres. destruct (investigation_report_raises i w Hres) as [w' Heq].
      eexists. exact Heq.
    + intros [st' Heq]. destruct (results i) as [| r rs] eqn:Hres; [reflexivity |].
      assert (Hne : results i <> []) by congruence.
      destruct (investigation_report_fields i w Hne) as (r' & w' & Heq' & _).
      congruence.
  - intros category operation ok details data.
    destruct (log_result_appends category operation ok details data i w)
      as (r & Heq & _).
    unfold bind. rewrite Heq, analyze_permissions_table. cbn [results].
    destruct (results i); cbn [app]; do 2 eexists; reflexivity.
Qed.

Lemma successes_snoc rs r :
  successes (rs ++ [r]) = (successes rs + (if success r then 1 else 0))%nat.
Proof.
  unfold successes. rewrite filter_app, length_app. cbn [filter].
  destruct (success r); reflexivity.
Qed.

Lemma rank_of_rate s t :
  (0 < t)%nat ->
  rank (access_level_of (overall_success_rate s t))
  = if 75 * Z.of_nat t <=? 100 * Z.of_nat s then 3%nat
    else if 50 * Z.of_nat t <=? 100 * Z.of_nat s then 2%nat
    else if 25 * Z.of_nat t <=? 100 * Z.of_nat s then 1%nat
    else 0%nat.
Proof.
  intros Ht. rewrite (access_level_of_rate s t Ht).
  repeat match goal with
         | |- context [?a <=? ?b] => destruct (a <=? b)
         end; reflexivity.
Qed.

(** X10.  Logging one more successful result never lowers the access level,
    and logging one more failed result never raises it. *)
Theorem access_level_follows_new_results :
  forall i w category operation details data,
    results i <> [] ->
    let after ok :=
      fst (snd (log_result now category operation ok details data (i, w))) in
    exists l l_ok l_fail,
      level_of i = Some l
      /\ level_of (after true) = Some l_ok
      /\ level_of (after false) = Some l_fail
      /\ (rank l_fail <= rank l)%nat
      /\ (rank l <= rank l_ok)%nat.
Proof.
  intros i w category operation details data Hne after.
  assert (Hafter : forall ok,
             exists r, results (after ok) = results i ++ [r] /\ success r = ok).
  { intros ok. subst after. cbv beta.
    destruct (log_result_appends category operation ok details data i w)
      as (r & Heq & Hs & _).
    rewrite Heq. exists r. split; [reflexivity | exact Hs]. }
  destruct (Hafter true) as (r1 & Hr1 & Hs1).
  destruct (Hafter false) as (r0 & Hr0 & Hs0).
  unfold level_of. rewrite !analyze_permissions_table. cbn [fst].
  rewrite Hr1, Hr0.
  destruct (results i) as [| x rs] eqn:Hres; [congruence |].
  cbn [app]. do 3 eexists. repeat split.
  - change (x :: rs ++ [r0]) with ((x :: rs) ++ [r0]).
    rewrite !rank_of_rate by (cbn; lia).
    rewrite successes_snoc, length_app, Hs0. cbn [List.length].
    repeat match goal with
           | |- context [?a <=? ?b] => destruct (Z.leb_spec a b)
           end; lia.
  - change (x :: rs ++ [r1]) with ((x :: rs) ++ [r1]).
    rewrite !rank_of_rate by (cbn; lia).
    rewrite successes_snoc, length_app, Hs1. cbn [List.length].
    assert (Hle : (successes (x :: rs) <= List.length (x :: rs))%nat)
      by apply filter_length_le.
    cbn [List.length] in Hle.
    repeat match goal with
           | |- context [?a <=? ?b] => destruct (Z.leb_spec a b)
           end; lia.
Qed.

End PermissionTable.

(** ** The exploration run *)

Section Exploration.

Import RealPendoAPIExplorer Probe ExplorerRun.
Local Open Scope list_scope.

Variable tr : nat -> request -> reply.
Variable now : nat -> string.
Variable now_compact : nat -> string.

Lemma find_is_first_of_filter {A} (f : A -> bool) (l : list A) :
  find f l = hd_error (filter f l).
Proof.
  induction l as [| x l IH]; [reflexivity |].
  cbn. destruct (f x); [reflexivity | exact IH].
Qed.

Lemma replies_ok_app n l1 l2 :
  replies_ok tr n (l1 ++ l2)
  = replies_ok tr n l1 ++ replies_ok tr (n + List.length l1) l2.
Proof.
  revert n. induction l1 as [| rq l1 IH]; intros n; cbn.
  - now rewrite Nat.add_0_r.
  - rewrite IH. do 3 f_equal. lia.
Qed.

Lemma get_success_of (o : pydict) (b : bool) :
  dict_get "success" o = Some (PyBool b) -> get_success o = b.
Proof. unfold get_success. now intros ->. Qed.

Lemma host_of_attempt (o : pydict) b e :
  attempt_of o = attempt (b, e) -> host_of o = b.
Proof.
  unfold attempt_of, attempt, host_of. cbn. intros H.
  injection H as Hb _. now rewrite Hb.
Qed.

(** The inner loop of the probe, with what it sends and what it gathers. *)
Lemma inner_loop_trace b endpoints : forall acc s w,
  responds tr (List.length (net w)) (List.length (net w) + List.length endpoints) ->
  exists outs,
    for_fold endpoints acc (probe_one tr b) (s, w)
    = (Returned (acc ++ outs),
       (s, mkWorld
             (net w ++ map (fun e => explorer_request s b e "GET" PyNone) endpoints)
             (ticks w) (logged w)))
    /\ map get_success outs
       = replies_ok tr (List.length (net w))
           (map (fun e => explorer_request s b e "GET" PyNone) endpoints)
    /\ Forall (fun o => host_of o = b) outs
    /\ Forall (fun o => exists v, dict_get "success" o = Some v) outs
    /\ List.length outs = List.length endpoints.
Proof.
  induction endpoints as [| e es IH]; intros acc s w Hresp.
  - exists []. cbn. rewrite !app_nil_r. destruct w. repeat split; constructor.
  - destruct (Hresp (List.length (net w)) (explorer_request s b e "GET" PyNone))
      as [r Hr]; [cbn; lia |].
    destruct (probe_one_responded tr b acc e s w r Hr) as (out & Heq & Hat & Hs).
    cbn [for_fold]. unfold bind at 1. rewrite Heq.
    set (w1 := mkWorld (net w ++ [explorer_request s b e "GET" PyNone])
                 (ticks w) (logged w)).
    assert (Hlen : List.length (net w1) = S (List.length (net w)))
      by (cbn; rewrite length_app; cbn; lia).
    destruct (IH (acc ++ [out]) s w1)
      as (outs & Hrun & Hflags & Hhost & Hall & Hcount).
    { intros n rq Hn. apply Hresp. rewrite Hlen in Hn. cbn [List.length]. lia. }
    exists (out :: outs). rewrite Hrun, <- !app_assoc. cbn [app map net ticks logged w1].
    rewrite <- app_assoc. cbn [app].
    split; [reflexivity |]. split.
    + cbn [map replies_ok]. rewrite Hr. cbn [reply_ok].
      rewrite (get_success_of _ _ Hs), Hflags, Hlen. reflexivity.
    + split; [constructor; [eapply host_of_attempt; exact Hat | exact Hhost] |].
      split; [constructor; [eexists; exact Hs | exact Hall] |].
      cbn. now rewrite Hcount.
Qed.

Lemma probe_host_trace endpoints b s w :
  responds tr (List.length (net w)) (List.length (net w) + List.length endpoints) ->
  exists outs,
    probe_host tr endpoints b (s, w)
    = (Returned tt,
       (after_host s b outs,
        mkWorld
          (net w ++ map (fun e => explorer_request s b e "GET" PyNone) endpoints)
          (ticks w) (logged w)))
    /\ map get_success outs
       = replies_ok tr (List.length (net w))
           (map (fun e => explorer_request s b e "GET" PyNone) endpoints)
    /\ Forall (fun o => host_of o = b) outs
    /\ List.length outs = List.length endpoints.
Proof.
  intros Hresp.
  destruct (inner_loop_trace b endpoints [] s w Hresp)
    as (outs & Hrun & Hflags & Hhost & Hall & Hcount).
  cbn [app] in Hrun. exists outs.
  unfold probe_host. unfold bind at 1. rewrite Hrun.
  unfold bind at 1. rewrite (filter_m_success outs _ Hall).
  split; [| repeat split; assumption].
  unfold after_host, bind, set_self, ret.
  destruct (filter get_success outs) as [| o os].
  - reflexivity.
  - clear. destruct s as [k c bu rs [b0 |] we]; reflexivity.
Qed.

Lemma after_host_fields s b outs :
  api_key (after_host s b outs) = api_key s
  /\ case_code (after_host s b outs) = case_code s
  /\ base_urls (after_host s b outs) = base_urls s
  /\ results (after_host s b outs) = results s ++ outs
  /\ working_base_url (after_host s b outs)
     = match working_base_url s with
       | Some x => Some x
       | None => match filter get_success outs with
                 | [] => None
                 | _ :: _ => Some b
                 end
       end.
Proof.
  unfold after_host.
  destruct (filter get_success outs), (working_base_url s) eqn:Hw;
    cbn; rewrite ?Hw; repeat split.
Qed.

Lemma explorer_request_key s s' b e m d :
  api_key s' = api_key s ->
  explorer_request s' b e m d = explorer_request s b e m d.
Proof. unfold explorer_request. now intros ->. Qed.

(** The outer loop of the probe when the service responds throughout. *)
Lemma outer_loop_trace endpoints hosts : forall s w,
  responds tr (List.length (net w))
    (List.length (net w) + List.length hosts * List.length endpoints) ->
  exists outs s',
    for_each hosts (probe_host tr endpoints) (s, w)
    = (Returned tt,
       (s', mkWorld
              (net w
               ++ map (fun be => explorer_request s (fst be) (snd be) "GET" PyNone)
                    (list_prod hosts endpoints))
              (ticks w) (logged w)))
    /\ api_key s' = api_key s
    /\ case_code s' = case_code s
    /\ base_urls s' = base_urls s
    /\ results s' = results s ++ outs
    /\ working_base_url s'
       = match working_base_url s with
         | Some x => Some x
         | None => option_map host_of (find get_success outs)
         end
    /\ map get_success outs
       = replies_ok tr (List.length (net w))
           (map (fun be => explorer_request s (fst be) (snd be) "GET" PyNone)
              (list_prod hosts endpoints))
    /\ List.length outs = (List.length hosts * List.length endpoints)%nat
    /\ map host_of outs = map fst (list_prod hosts endpoints).
Proof.
  induction hosts as [| b bs IH]; intros s w Hresp.
  - exists [], s. cbn. rewrite !app_nil_r. destruct w.
    repeat split. now destruct (working_base_url s).
  - cbn [List.length Nat.mul] in Hresp.
    destruct (probe_host_trace endpoints b s w)
      as (outs & Heq & Hflags & Hhost & Hcount).
    { intros n rq Hn. apply Hresp. lia. }
    destruct (after_host_fields s b outs) as (Hk & Hc & Hb & Hr & Hw).
    set (s1 := after_host s b outs) in *.
    set (w1 := mkWorld
                 (net w ++ map (fun e => explorer_request s b e "GET" PyNone) endpoints)
                 (ticks w) (logged w)) in *.
    assert (Hlen : List.length (net w1)
                   = (List.length (net w) + List.length endpoints)%nat)
      by (cbn; rewrite length_app, length_map; reflexivity).
    destruct (IH s1 w1)
      as (outs' & s' & Heq' & Hk' & Hc' & Hb' & Hr' & Hw' & Hflags' & Hcount'
          & Hhosts').
    { intros n rq Hn. apply Hresp. lia. }
    exists (outs ++ outs'), s'.
    cbn [for_each]. unfold bind at 1. rewrite Heq, Heq'.
    assert (Hreq : map (fun be => explorer_request s1 (fst be) (snd be) "GET" PyNone)
                     (list_prod bs endpoints)
                   = map (fun be => explorer_request s (fst be) (snd be) "GET" PyNone)
                       (list_prod bs endpoints)).
    { apply map_ext. intros be. now apply explorer_request_key. }
    rewrite Hreq in *.
    cbn [list_prod]. rewrite !map_app, map_map. cbn [fst snd net ticks logged w1].
    rewrite <- app_assoc.
    split; [reflexivity |].
    split; [congruence |]. split; [congruence |]. split; [congruence |].
    split; [rewrite Hr', Hr, app_assoc; reflexivity |].
    split; [| split; [| split]].
    + rewrite Hw', Hw. destruct (working_base_url s) as [x |]; [reflexivity |].
      rewrite !find_is_first_of_filter, filter_app.
      destruct (filter get_success outs) as [| o os] eqn:Hf; [reflexivity |].
      cbn. f_equal.
      assert (Hin : In o outs).
      { apply (proj1 (filter_In get_success o outs)). rewrite Hf. now left. }
      rewrite Forall_forall in Hhost. symmetry. now apply Hhost.
    + rewrite replies_ok_app, length_map, Hflags, <- Hlen, Hflags'.
      reflexivity.
    + rewrite length_app, Hcount, Hcount'. reflexivity.
    + rewrite Hhosts'. f_equal.
      clear - Hhost Hcount. revert endpoints Hcount.
      induction Hhost as [| o outs Ho _ IHo]; intros [| e es] Hc;
        try discriminate; [reflexivity |].
      cbn. rewrite Ho. f_equal. apply IHo. now injection Hc.
Qed.

Lemma probe_endpoints_trace endpoints s w :
  responds tr (List.length (net w))
    (List.length (net w) + List.length (base_urls s) * List.length endpoints) ->
  exists outs s',
    probe_endpoints tr endpoints (s, w)
    = (Returned (results s ++ outs),
       (s', mkWorld (net w ++ probe_requests s endpoints) (ticks w) (logged w)))
    /\ api_key s' = api_key s
    /\ case_code s' = case_code s
    /\ base_urls s' = base_urls s
    /\ results s' = results s ++ outs
    /\ working_base_url s'
       = match working_base_url s with
         | Some x => Some x
         | None => option_map host_of (find get_success outs)
         end
    /\ map get_success outs
       = replies_ok tr (List.length (net w)) (probe_requests s endpoints)
    /\ List.length outs
       = (List.length (base_urls s) * List.length endpoints)%nat
    /\ map host_of outs = map fst (list_prod (base_urls s) endpoints).
Proof.
  intros Hresp.
  destruct (outer_loop_trace endpoints (base_urls s) s w Hresp)
    as (outs & s' & Heq & Hk & Hc & Hb & Hr & Hrest).
  exists outs, s'.
  unfold probe_endpoints. unfold bind at 1. cbn [get_self].
  unfold get_self at 1. unfold bind at 1. rewrite Heq.
  unfold bind, get_self, ret. rewrite Hr.
  split; [reflexivity |]. repeat split; try assumption; apply Hrest.
Qed.

(** X11.  Host pinning.  When the service responds to every request of a
    probe run, the run returns [self.results] extended by one outcome per
    attempt, whose [success] is the truth of "status below 400" for the
    reply to that attempt.  A working base URL that is already set is never
    replaced; otherwise it becomes the host of the first successful outcome
    of the run, and stays unset when no outcome is successful. *)
Theorem working_base_url_is_first_successful_host :
  forall endpoints s w,
    responds tr (List.length (net w))
      (List.length (net w) + List.length (base_urls s) * List.length endpoints) ->
    exists outs s' w',
      probe_endpoints tr endpoints (s, w) = (Returned (results s ++ outs), (s', w'))
      /\ results s' = results s ++ outs
      /\ net w' = net w ++ probe_requests s endpoints
      /\ map get_success outs
         = replies_ok tr (List.length (net w)) (probe_requests s endpoints)
      /\ working_base_url s'
         = match working_base_url s with
           | Some b => Some b
           | None => option_map host_of (find get_success outs)
           end.
Proof.
  intros endpoints s w Hresp.
  destruct (probe_endpoints_trace endpoints s w Hresp)
    as (outs & s' & Heq & _ & _ & _ & Hr & Hw & Hflags & _ & _).
  exists outs, s'. eexists. split; [exact Heq |].
  repeat split; assumption.
Qed.

(** One pass of a follow-up loop when the service responds. *)
Lemma followup_step_responded key base acc name m ep d s w r :
  (key =? "success")%string = false ->
  (key =? "status_code")%string = false ->
  tr (List.length (net w)) (explorer_request s base ep m d) = Responded r ->
  exists out,
    followup_step tr key base acc (name, m, ep, d) (s, w)
    = (Returned (acc ++ [out]),
       (s, mkWorld (net w ++ [explorer_request s base ep m d])
             (ticks w) (logged w)))
    /\ get_success out = (status_code r <? 400).
Proof.
  intros Hk1 Hk2 Hrp.
  destruct (test_pendo_endpoint_returns tr base ep m d s w)
    as (out & Heq & _ & _ & Hcase).
  rewrite Hrp in Hcase. destruct Hcase as (Hs & Hc & _).
  exists (dict_set key (PyStr name) out).
  unfold followup_step. unfold bind at 1. rewrite Heq.
  assert (Hs' : dict_get "success" (dict_set key (PyStr name) out)
                = Some (PyBool (status_code r <? 400)))
    by (rewrite dict_get_set, Hk1; exact Hs).
  assert (Hc' : dict_get "status_code" (dict_set key (PyStr name) out)
                = Some (PyInt (status_code r)))
    by (rewrite dict_get_set, Hk2; exact Hc).
  split.
  - unfold bind, getitem. rewrite Hs', Hc'. cbn [ret truthy].
    destruct (status_code r <? 400); reflexivity.
  - now apply get_success_of.
Qed.

Lemma followup_step_failed key base acc name m ep d s w msg :
  (key =? "status_code")%string = false ->
  (key =? "success")%string = false ->
  tr (List.length (net w)) (explorer_request s base ep m d)
  = RequestException msg ->
  followup_step tr key base acc (name, m, ep, d) (s, w)
  = (Raised (KeyError "status_code"),
     (s, mkWorld (net w ++ [explorer_request s base ep m d])
           (ticks w) (logged w))).
Proof.
  intros Hk Hk' Hrp.
  destruct (test_pendo_endpoint_returns tr base ep m d s w)
    as (out & Heq & _ & _ & Hcase).
  rewrite Hrp in Hcase. subst out.
  unfold followup_step. unfold bind at 1. rewrite Heq.
  unfold bind, getitem. rewrite !dict_get_set, Hk, Hk'. reflexivity.
Qed.

Lemma followup_loop_completes key base ops : forall acc s w,
  (key =? "success")%string = false ->
  (key =? "status_code")%string = false ->
  responds tr (List.length (net w)) (List.length (net w) + List.length ops) ->
  exists outs,
    for_fold ops acc (followup_step tr key base) (s, w)
    = (Returned (acc ++ outs),
       (s, mkWorld (net w ++ map (op_request s base) ops) (ticks w) (logged w)))
    /\ map get_success outs
       = replies_ok tr (List.length (net w)) (map (op_request s base) ops)
    /\ List.length outs = List.length ops.
Proof.
  induction ops as [| [[[name m] ep] d] ops IH]; intros acc s w Hk1 Hk2 Hresp.
  - exists []. cbn. rewrite !app_nil_r. destruct w. repeat split.
  - destruct (Hresp (List.length (net w)) (explorer_request s base ep m d))
      as [r Hr]; [cbn; lia |].
    destruct (followup_step_responded key base acc name m ep d s w r Hk1 Hk2 Hr)
      as (out & Heq & Hs).
    cbn [for_fold]. unfold bind at 1. rewrite Heq.
    set (w1 := mkWorld (net w ++ [explorer_request s base ep m d])
                 (ticks w) (logged w)).
    assert (Hlen : List.length (net w1) = S (List.length (net w)))
      by (cbn; rewrite length_app; cbn; lia).
    destruct (IH (acc ++ [out]) s w1 Hk1 Hk2) as (outs & Hrun & Hflags & Hcount).
    { intros n rq Hn. apply Hresp. rewrite Hlen in Hn. cbn [List.length]. lia. }
    exists (out :: outs). rewrite Hrun, <- !app_assoc.
    cbn [app map net ticks logged w1 op_request]. rewrite <- app_assoc. cbn [app].
    split; [reflexivity |]. split.
    + cbn [map replies_ok]. rewrite Hr. cbn [reply_ok].
      rewrite Hs, Hflags, Hlen. reflexivity.
    + cbn. now rewrite Hcount.
Qed.

Lemma followup_loop_aborts key base ops : forall acc s w k msg,
  (key =? "success")%string = false ->
  (key =? "status_code")%string = false ->
  (k < List.length ops)%nat ->
  responds tr (List.length (net w)) (List.length (net w) + k) ->
  fails_at tr (List.length (net w) + k) msg ->
  exists w',
    for_fold ops acc (followup_step tr key base) (s, w)
    = (Raised (KeyError "status_code"), (s, w')).
Proof.
  induction ops as [| [[[name m] ep] d] ops IH];
    intros acc s w k msg Hk1 Hk2 Hk Hresp Hfail.
  - cbn in Hk. lia.
  - cbn [for_fold]. unfold bind at 1.
    destruct k as [| k].
    + rewrite Nat.add_0_r in Hfail.
      rewrite (followup_step_failed key base acc name m ep d s w msg Hk2 Hk1
                 (Hfail _)).
      eexists. reflexivity.
    + destruct (Hresp (List.length (net w)) (explorer_request s base ep m d))
        as [r Hr]; [lia |].
      destruct (followup_step_responded key base acc name m ep d s w r Hk1 Hk2 Hr)
        as (out & Heq & _).
      rewrite Heq.
      set (w1 := mkWorld (net w ++ [explorer_request s base ep m d])
                   (ticks w) (logged w)).
      assert (Hlen : List.length (net w1) = S (List.length (net w)))
        by (cbn; rewrite length_app; cbn; lia).
      apply (IH (acc ++ [out]) s w1 k msg Hk1 Hk2).
      * cbn in Hk. lia.
      * intros n rq Hn. apply Hresp. lia.
      * intros rq. rewrite Hlen.
        replace (S (List.length (net w)) + k)%nat
          with (List.length (net w) + S k)%nat by lia.
        apply Hfail.
Qed.

(** X12.  The three follow-up tests share the defect of the probe loop.  With
    a working base URL set, a test whose service responds up to some call and
    whose next call makes [requests] raise ends in [KeyError] for the missing
    ['status_code'] instead of returning its list of results. *)
Theorem followup_tests_abort_on_transport_failure :
  forall s w b,
    working_base_url s = Some b ->
    (forall k msg,
        (k < 3)%nat ->
        responds tr (List.length (net w)) (List.length (net w) + k) ->
        fails_at tr (List.length (net w) + k) msg ->
        exists st',
          test_aggregation_api tr (s, w) = (Raised (KeyError "status_code"), st'))
    /\ (forall k msg,
          (k < 3)%nat ->
          responds tr (List.length (net w)) (List.length (net w) + k) ->
          fails_at tr (List.length (net w) + k) msg ->
          exists st',
            test_visitor_metadata_operations tr now_compact (s, w)
            = (Raised (KeyError "status_code"), st'))
    /\ (forall k msg,
          (k < 2)%nat ->
          responds tr (List.length (net w)) (List.length (net w) + k) ->
          fails_at tr (List.length (net w) + k) msg ->
          exists st',
            test_guide_operations tr (s, w)
            = (Raised (KeyError "status_code"), st')).
Proof.
  intros s w b Hb. split; [| split]; intros k msg Hk Hresp Hfail.
  - unfold test_aggregation_api, bind, get_self. rewrite Hb.
    destruct (followup_loop_aborts "query_name" b
                (map (fun query =>
                        (fst query, "POST", "/api/v1/aggregation", snd query))
                   aggregation_queries)
                [] s w k msg eq_refl eq_refl Hk Hresp Hfail) as (w' & Heq).
    rewrite Heq. eexists. reflexivity.
  - unfold test_visitor_metadata_operations, bind, get_self, datetime_now.
    rewrite Hb.
    destruct (followup_loop_aborts "operation_name" b
                (visitor_operations (now_compact (ticks w)))
                [] s (mkWorld (net w) (S (ticks w)) (logged w)) k msg
                eq_refl eq_refl Hk Hresp Hfail) as (w' & Heq).
    rewrite Heq. eexists. reflexivity.
  - unfold test_guide_operations, bind, get_self. rewrite Hb.
    destruct (followup_loop_aborts "operation_name" b guide_operations
                [] s w k msg eq_refl eq_refl Hk Hresp Hfail) as (w' & Heq).
    rewrite Heq. eexists. reflexivity.
Qed.

Lemma replies_ok_uniform (b : bool) :
  (forall n rq, reply_ok (tr n rq) = b) ->
  forall rqs n, replies_ok tr n rqs = repeat b (List.length rqs).
Proof.
  intros H rqs. induction rqs as [| rq rqs IH]; intros n; cbn; [reflexivity |].
  now rewrite H, IH.
Qed.

Lemma always_succeeds_ok : always_succeeds tr -> forall n rq, reply_ok (tr n rq) = true.
Proof.
  intros H n rq. destruct (H n rq) as (r & -> & Hlt). cbn. now apply Z.ltb_lt.
Qed.

Lemma always_refuses_ok : always_refuses tr -> forall n rq, reply_ok (tr n rq) = false.
Proof.
  intros H n rq. destruct (H n rq) as (r & -> & Hge). cbn. apply Z.ltb_ge. lia.
Qed.

Lemma filter_all {A} (f : A -> bool) (l : list A) (b : bool) :
  map f l = repeat b (List.length l) ->
  filter f l = if b then l else [].
Proof.
  induction l as [| x l IH]; cbn; [now destruct b |].
  intros H. injection H as Hx Hl. rewrite Hx, (IH Hl). now destruct b.
Qed.

Lemma comprehensive_report_fields all_results s w :
  exists rep,
    generate_comprehensive_report now all_results (s, w)
    = (Returned rep, (s, mkWorld (net w) (S (ticks w)) (logged w)))
    /\ exploration_timestamp rep = now (ticks w)
    /\ report_working_base_url rep = working_base_url s
    /\ base_urls_tested rep = base_urls s
    /\ detailed_results rep = List.concat all_results
    /\ total_tests rep = List.length (List.concat all_results)
    /\ successful_tests rep
       = List.length (filter get_success (List.concat all_results))
    /\ success_rate rep
       = (match List.concat all_results with
          | [] => 0
          | _ :: _ =>
              inject_Z (Z.of_nat
                          (List.length
                             (filter get_success (List.concat all_results))))
              / inject_Z (Z.of_nat (List.length (List.concat all_results)))
              * 100
          end)%Q
    /\ report_working_endpoints rep
       = flat_map (fun r => match dict_get "endpoint" r with
                            | Some e => [e]
                            | None => []
                            end)
           (filter get_success (List.concat all_results))
    /\ discovered_capabilities rep
       = _discover_capabilities (filter get_success (List.concat all_results)).
Proof.
  unfold generate_comprehensive_report, bind, datetime_now, get_self, ret.
  eexists. split; [reflexivity |]. repeat split.
Qed.

(** X13.  When the service refuses every request (status 400 or above), the
    whole exploration sends nothing but the GET requests of the probe, one
    per host and endpoint: no working base URL is found, the three follow-up
    tests send nothing, and the report shows 155 tests, no success, rate 0,
    no working endpoint and no capability. *)
Theorem exploration_without_success_only_probes :
  forall key w,
    always_refuses tr ->
    exists rep s' w',
      run_complete_exploration tr now now_compact (__init__ key, w)
      = (Returned rep, (s', w'))
      /\ net w' = net w ++ probe_requests (__init__ key) api_endpoints
      /\ Forall (fun rq => req_method rq = "GET")
           (probe_requests (__init__ key) api_endpoints)
      /\ total_tests rep = 155%nat
      /\ successful_tests rep = 0%nat
      /\ (success_rate rep == 0)%Q
      /\ report_working_base_url rep = None
      /\ report_working_endpoints rep = []
      /\ discovered_capabilities rep = [].
Proof.
  intros key w Hall.
  set (s0 := __init__ key).
  assert (Hresp : forall lo hi, responds tr lo hi).
  { intros lo hi n rq _. destruct (Hall n rq) as (r & Hr & _). now exists r. }
  destruct (probe_endpoints_trace api_endpoints s0 w (Hresp _ _))
    as (outs & s' & Heq & Hk & Hc & Hb & Hr & Hw & Hflags & Hcount & _).
  rewrite (replies_ok_uniform false (always_refuses_ok Hall)) in Hflags.
  assert (Hlen : List.length (probe_requests s0 api_endpoints) = List.length outs).
  { unfold probe_requests. rewrite length_map, length_prod, Hcount. reflexivity. }
  rewrite Hlen in Hflags.
  pose proof (filter_all get_success outs false Hflags) as Hfilter.
  cbn [working_base_url s0 __init__] in Hw.
  rewrite find_is_first_of_filter, Hfilter in Hw. cbn in Hw.
  cbn [results s0 __init__ app] in Heq, Hr.
  destruct (comprehensive_report_fields [outs] s'
              (mkWorld (net w ++ probe_requests s0 api_endpoints)
                 (ticks w) (logged w)))
    as (rep & Hrep & _ & Hrw & _ & _ & Htot & Hsucc & Hrate & Hwe & Hcap).
  exists rep, s'. eexists.
  split.
  - unfold run_complete_exploration, test_real_pendo_endpoints.
    unfold bind at 1. rewrite Heq.
    unfold bind at 1. unfold get_self at 1.
    unfold bind at 1. rewrite Hw. cbn [ret]. exact Hrep.
  - cbn [List.concat] in *. rewrite app_nil_r in *.
    rewrite Hfilter in *. cbn [net].
    split; [reflexivity |].
    split; [unfold probe_requests; apply Forall_map, Forall_forall;
            intros; reflexivity |].
    split; [rewrite Htot, Hcount; reflexivity |].
    split; [exact Hsucc |].
    split.
    + rewrite Hrate. destruct outs; [reflexivity |].
      cbn [List.length filter Z.of_nat]. unfold Qeq. cbn. reflexivity.
    + rewrite Hrw, Hw. repeat split; assumption.
Qed.

Lemma aggregation_completes s w b :
  working_base_url s = Some b ->
  (forall lo hi, responds tr lo hi) ->
  exists outs,
    test_aggregation_api tr (s, w)
    = (Returned outs,
       (s, mkWorld
             (net w
              ++ map (op_request s b)
                   (map (fun query =>
                           (fst query, "POST", "/api/v1/aggregation", snd query))
                      aggregation_queries))
             (ticks w) (logged w)))
    /\ map get_success outs
       = replies_ok tr (List.length (net w))
           (map (op_request s b)
              (map (fun query =>
                      (fst query, "POST", "/api/v1/aggregation", snd query))
                 aggregation_queries))
    /\ List.length outs = 3%nat.
Proof.
  intros Hb Hresp.
  unfold test_aggregation_api, bind, get_self. rewrite Hb.
  destruct (followup_loop_completes "query_name" b
              (map (fun query =>
                      (fst query, "POST", "/api/v1/aggregation", snd query))
                 aggregation_queries)
              [] s w eq_refl eq_refl (Hresp _ _)) as (outs & Heq & Hflags & Hcount).
  exists outs. rewrite Heq. repeat split; assumption.
Qed.

Lemma visitor_operations_complete s w b :
  working_base_url s = Some b ->
  (forall lo hi, responds tr lo hi) ->
  exists outs,
    test_visitor_metadata_operations tr now_compact (s, w)
    = (Returned outs,
       (s, mkWorld
             (net w
              ++ map (op_request s b) (visitor_operations (now_compact (ticks w))))
             (S (ticks w)) (logged w)))
    /\ map get_success outs
       = replies_ok tr (List.length (net w))
           (map (op_request s b) (visitor_operations (now_compact (ticks w))))
    /\ List.length outs = 3%nat.
Proof.
  intros Hb Hresp.
  unfold test_visitor_metadata_operations, bind, get_self, datetime_now.
  rewrite Hb.
  destruct (followup_loop_completes "operation_name" b
              (visitor_operations (now_compact (ticks w)))
              [] s (mkWorld (net w) (S (ticks w)) (logged w))
              eq_refl eq_refl (Hresp _ _)) as (outs & Heq & Hflags & Hcount).
  exists outs. rewrite Heq. repeat split; assumption.
Qed.

Lemma guide_operations_complete s w b :
  working_base_url s = Some b ->
  (forall lo hi, responds tr lo hi) ->
  exists outs,
    test_guide_operations tr (s, w)
    = (Returned outs,
       (s, mkWorld (net w ++ map (op_request s b) guide_operations)
             (ticks w) (logged w)))
    /\ map get_success outs
       = replies_ok tr (List.length (net w))
           (map (op_request s b) guide_operations)
    /\ List.length outs = 2%nat.
Proof.
  intros Hb Hresp.
  unfold test_guide_operations, bind, get_self. rewrite Hb.
  destruct (followup_loop_completes "operation_name" b guide_operations
              [] s w eq_refl eq_refl (Hresp _ _)) as (outs & Heq & Hflags & Hcount).
  exists outs. rewrite Heq. repeat split; assumption.
Qed.

Lemma op_request_key s s' b op :
  api_key s' = api_key s -> op_request s' b op = op_request s b op.
Proof.
  destruct op as [[[name m] ep] d]. intros H. cbn.
  now apply explorer_request_key.
Qed.

Lemma all_successful (outs : list pydict) n rqs :
  always_succeeds tr ->
  map get_success outs = replies_ok tr n rqs ->
  List.length outs = List.length rqs ->
  filter get_success outs = outs.
Proof.
  intros Hall Hflags Hlen.
  rewrite (replies_ok_uniform true (always_succeeds_ok Hall)), <- Hlen in Hflags.
  exact (filter_all get_success outs true Hflags).
Qed.

(** X14.  When the service accepts every request (status below 400), the
    exploration pins the first base URL and goes on to the follow-up tests on
    it: after the 155 GET probes it sends the eight follow-up requests, four
    of them POST (three aggregation queries and "Create/Update Visitor",
    whose body names a test visitor stamped with the clock).  The report
    then shows 163 tests, all successful, rate 100. *)
Theorem exploration_with_success_sends_posts :
  forall key w,
    always_succeeds tr ->
    exists rep s' w',
      run_complete_exploration tr now now_compact (__init__ key, w)
      = (Returned rep, (s', w'))
      /\ net w'
         = net w
           ++ probe_requests (__init__ key) api_endpoints
           ++ map (op_request (__init__ key) "https://app.pendo.io")
                (followup_operations (now_compact (ticks w)))
      /\ map method_url
           (map (op_request (__init__ key) "https://app.pendo.io")
              (followup_operations (now_compact (ticks w))))
         = [("POST", "https://app.pendo.io/api/v1/aggregation");
            ("POST", "https://app.pendo.io/api/v1/aggregation");
            ("POST", "https://app.pendo.io/api/v1/aggregation");
            ("GET", "https://app.pendo.io/api/v1/visitor");
            ("GET", "https://app.pendo.io/api/v1/metadata/schema/visitor");
            ("POST", "https://app.pendo.io/api/v1/visitor");
            ("GET", "https://app.pendo.io/api/v1/guide");
            ("GET", "https://app.pendo.io/api/v1/metadata/schema/guide")]
      /\ total_tests rep = 163%nat
      /\ successful_tests rep = 163%nat
      /\ (success_rate rep == 100)%Q
      /\ report_working_base_url rep = Some "https://app.pendo.io".
Proof.
  intros key w Hall.
  set (s0 := __init__ key).
  set (base := "https://app.pendo.io").
  assert (Hresp : forall lo hi, responds tr lo hi).
  { intros lo hi n rq _. destruct (Hall n rq) as (r & Hr & _). now exists r. }
  destruct (probe_endpoints_trace api_endpoints s0 w (Hresp _ _))
    as (outs & s' & Heq & Hk & Hc & Hb & Hr & Hw & Hflags & Hcount & Hhosts).
  assert (Hlen : List.length outs = List.length (probe_requests s0 api_endpoints)).
  { unfold probe_requests. rewrite length_map, length_prod, Hcount. reflexivity. }
  pose proof (all_successful outs _ _ Hall Hflags Hlen) as Hfilter.
  cbn [working_base_url s0 __init__] in Hw.
  rewrite find_is_first_of_filter, Hfilter in Hw.
  cbn [results s0 __init__ app] in Heq, Hr.
  assert (Hpin : working_base_url s' = Some base).
  { rewrite Hw. destruct outs as [| o outs]; [discriminate Hcount |].
    cbn in Hhosts. injection Hhosts as Ho _. cbn. now rewrite Ho. }
  set (w1 := mkWorld (net w ++ probe_requests s0 api_endpoints) (ticks w) (logged w))
    in *.
  destruct (aggregation_completes s' w1 base Hpin Hresp)
    as (oa & Ha & Hfa & Hca).
  set (w2 := mkWorld _ (ticks w1) (logged w1)) in Ha.
  destruct (visitor_operations_complete s' w2 base Hpin Hresp)
    as (ov & Hv & Hfv & Hcv).
  set (w3 := mkWorld _ (S (ticks w2)) (logged w2)) in Hv.
  destruct (guide_operations_complete s' w3 base Hpin Hresp)
    as (og & Hg & Hfg & Hcg).
  set (w4 := mkWorld _ (ticks w3) (logged w3)) in Hg.
  destruct (comprehensive_report_fields [outs; oa; ov; og] s' w4)
    as (rep & Hrep & _ & Hrw & _ & _ & Htot & Hsucc & Hrate & _).
  assert (Hall_ok : filter get_success (List.concat [outs; oa; ov; og])
                    = List.concat [outs; oa; ov; og]).
  { cbn [List.concat]. rewrite !filter_app. cbn [filter].
    rewrite Hfilter.
    rewrite (all_successful oa _ _ Hall Hfa)
      by (rewrite Hca, !length_map; reflexivity).
    rewrite (all_successful ov _ _ Hall Hfv)
      by (rewrite Hcv, !length_map; reflexivity).
    rewrite (all_successful og _ _ Hall Hfg)
      by (rewrite Hcg, !length_map; reflexivity).
    reflexivity. }
  assert (Hn : List.length (List.concat [outs; oa; ov; og]) = 163%nat).
  { cbn [List.concat]. rewrite !length_app, Hcount, Hca, Hcv, Hcg. reflexivity. }
  exists rep, s'. eexists.
  split.
  - unfold run_complete_exploration, test_real_pendo_endpoints.
    unfold bind at 1. rewrite Heq.
    unfold bind at 1. unfold get_self at 1.
    unfold bind at 1. rewrite Hpin.
    unfold bind at 1. rewrite Ha.
    unfold bind at 1. rewrite Hv.
    unfold bind at 1. rewrite Hg. cbn [ret]. exact Hrep.
  - split.
    + assert (Hop : forall l,
                 map (op_request s' base) l = map (op_request s0 base) l).
      { intros l. apply map_ext. intros op. now apply op_request_key. }
      cbn [net w4 w3 w2 w1 ticks logged]. rewrite !Hop.
      unfold followup_operations. rewrite !map_app, <- !app_assoc.
      reflexivity.
    + split; [reflexivity |].
      rewrite Htot, Hsucc, Hrate, Hrw, Hall_ok, Hn.
      split; [reflexivity |]. split; [reflexivity |]. split; [| exact Hpin].
      destruct (List.concat [outs; oa; ov; og]); [discriminate Hn | reflexivity].
Qed.

End Exploration.

(** Witness of X11: a service that answers every request. *)
Lemma working_base_url_witness :
  Probe.responds (Probe.tr_fails_from 155) 0
    (0 + List.length
           (RealPendoAPIExplorer.base_urls
              (RealPendoAPIExplorer.__init__ Gate.demo_key))
         * List.length RealPendoAPIExplorer.api_endpoints)
  /\ exists outs st',
       RealPendoAPIExplorer.probe_endpoints (Probe.tr_fails_from 155)
         RealPendoAPIExplorer.api_endpoints
         (RealPendoAPIExplorer.__init__ Gate.demo_key, world0)
       = (Returned outs, st')
       /\ RealPendoAPIExplorer.working_base_url (fst st')
          = option_map ExplorerRun.host_of
              (find RealPendoAPIExplorer.get_success outs).
Proof.
  assert (H : Probe.responds (Probe.tr_fails_from 155) 0
                (0 + List.length
                       (RealPendoAPIExplorer.base_urls
                          (RealPendoAPIExplorer.__init__ Gate.demo_key))
                     * List.length RealPendoAPIExplorer.api_endpoints)).
  { intros n rq Hn. unfold Probe.tr_fails_from.
    destruct (Nat.ltb_spec n 155) as [_ | Hge]; [eexists; reflexivity |].
    cbn in Hn. lia. }
  split; [exact H |].
  destruct (working_base_url_is_first_successful_host
              (Probe.tr_fails_from 155) RealPendoAPIExplorer.api_endpoints
              (RealPendoAPIExplorer.__init__ Gate.demo_key) world0 H)
    as (outs & s' & w' & Heq & _ & _ & _ & Hw).
  exists outs, (s', w'). split; [exact Heq | exact Hw].
Defined.

(** ** Capabilities and figures of the exploration report *)

Section ExplorationReport.

Import RealPendoAPIExplorer ExplorerRun.
Local Open Scope list_scope.

Variable now : nat -> string.

Lemma set_add_spec x s :
  (NoDup s -> NoDup (set_add x s))
  /\ forall y, In y (set_add x s) <-> y = x \/ In y s.
Proof.
  unfold set_add, str_in.
  destruct (existsb (String.eqb x) s) eqn:Hx.
  - apply existsb_exists in Hx as (z & Hz & Heq).
    apply String.eqb_eq in Heq. subst z.
    split; [auto |]. intros y. split; [tauto | intros [-> | H]; assumption].
  - split.
    + intros Hnd. apply NoDup_app; [exact Hnd | repeat constructor; cbn; tauto |].
      intros y Hy [Heq | []]. subst y.
      assert (existsb (String.eqb x) s = true); [| congruence].
      apply existsb_exists. exists x. split; [exact Hy | apply String.eqb_refl].
    + intros y. rewrite in_app_iff. cbn. split.
      * intros [H | [H | []]]; auto.
      * intros [-> | H]; auto.
Qed.

Lemma discover_step capabilities result :
  (let endpoint := endpoint_of result in
   if contains "aggregation" endpoint then set_add "Analytics & Aggregation" capabilities
   else if contains "visitor" endpoint then set_add "Visitor Management" capabilities
   else if contains "account" endpoint then set_add "Account Management" capabilities
   else if contains "guide" endpoint then set_add "Guide Management" capabilities
   else if contains "feature" endpoint then set_add "Feature Analytics" capabilities
   else if contains "page" endpoint then set_add "Page Analytics" capabilities
   else if contains "track" endpoint || contains "event" endpoint
        then set_add "Event Tracking" capabilities
   else if contains "report" endpoint then set_add "Reporting" capabilities
   else if contains "metadata" endpoint then set_add "Metadata Management" capabilities
   else if contains "status" endpoint || contains "health" endpoint
        then set_add "System Status" capabilities
   else capabilities)
  = match capability_of (endpoint_of result) with
    | Some c => set_add c capabilities
    | None => capabilities
    end.
Proof.
  cbv zeta. unfold capability_of.
  repeat match goal with
         | |- context [if ?b then _ else _] => destruct b; try reflexivity
         end.
Qed.

Lemma discover_fold rs : forall acc,
  let out :=
    fold_left
      (fun capabilities result =>
         match capability_of (endpoint_of result) with
         | Some c => set_add c capabilities
         | None => capabilities
         end) rs acc in
  (NoDup acc -> NoDup out)
  /\ forall c, In c out
               <-> In c acc
                   \/ exists r, In r rs /\ capability_of (endpoint_of r) = Some c.
Proof.
  induction rs as [| r rs IH]; intros acc; cbn zeta.
  - cbn. split; [auto |]. intros c. split; [tauto | intros [H | (r & [] & _)]; exact H].
  - cbn [fold_left].
    destruct (capability_of (endpoint_of r)) as [c0 |] eqn:Hc.
    + destruct (IH (set_add c0 acc)) as [Hnd Hin].
      destruct (set_add_spec c0 acc) as [Hnd0 Hin0].
      split; [auto |]. intros c. rewrite Hin, Hin0. split.
      * intros [[-> | H] | (r' & Hr' & Hc')].
        -- right. exists r. split; [now left | exact Hc].
        -- now left.
        -- right. exists r'. split; [now right | exact Hc'].
      * intros [H | (r' & [<- | Hr'] & Hc')].
        -- left. now right.
        -- left. left. congruence.
        -- right. exists r'. split; assumption.
    + destruct (IH acc) as [Hnd Hin]. split; [exact Hnd |].
      intros c. rewrite Hin. split.
      * intros [H | (r' & Hr' & Hc')]; [now left |].
        right. exists r'. split; [now right | exact Hc'].
      * intros [H | (r' & [<- | Hr'] & Hc')]; [now left | congruence |].
        right. exists r'. split; assumption.
Qed.

Lemma capability_of_named e c :
  capability_of e = Some c -> In c capability_names.
Proof.
  unfold capability_of, capability_names.
  repeat match goal with
         | |- context [if ?b then _ else _] => destruct b
         end; intros H; try discriminate; injection H as <-; cbn; tauto.
Qed.

(** X15.  [_discover_capabilities] lists a capability exactly when some
    result has an endpoint that the substring chain assigns to it, the first
    matching substring deciding; the list has no duplicates, at most the ten
    known names, and is empty for no results.  Order and repetition of the
    results do not change which capabilities are listed. *)
Theorem discovered_capabilities_are_a_set :
  forall successful_results,
    NoDup (_discover_capabilities successful_results)
    /\ (forall c,
          In c (_discover_capabilities successful_results)
          <-> exists r, In r successful_results
                        /\ capability_of (endpoint_of r) = Some c)
    /\ incl (_discover_capabilities successful_results) capability_names
    /\ (List.length (_discover_capabilities successful_results) <= 10)%nat.
Proof.
  intros rs.
  assert (Heq : _discover_capabilities rs
                = fold_left
                    (fun capabilities result =>
                       match capability_of (endpoint_of result) with
                       | Some c => set_add c capabilities
                       | None => capabilities
                       end) rs []).
  { unfold _discover_capabilities. generalize (@nil string).
    induction rs as [| r rs IH]; intros acc; [reflexivity |].
    cbn [fold_left]. rewrite IH. f_equal. apply discover_step. }
  rewrite Heq. destruct (discover_fold rs []) as [Hnd Hin].
  assert (Hmem : forall c,
             In c (fold_left
                     (fun capabilities result =>
                        match capability_of (endpoint_of result) with
                        | Some c => set_add c capabilities
                        | None => capabilities
                        end) rs [])
             <-> exists r, In r rs /\ capability_of (endpoint_of r) = Some c).
  { intros c. rewrite Hin. cbn. tauto. }
  assert (Hincl : incl (fold_left
                          (fun capabilities result =>
                             match capability_of (endpoint_of result) with
                             | Some c => set_add c capabilities
                             | None => capabilities
                             end) rs []) capability_names).
  { intros c Hc. apply Hmem in Hc as (r & _ & Hr).
    eapply capability_of_named; exact Hr. }
  split; [apply Hnd; constructor |]. split; [exact Hmem |].
  split; [exact Hincl |].
  change 10%nat with (List.length capability_names).
  apply NoDup_incl_length; [apply Hnd; constructor | exact Hincl].
Qed.


End ExplorationReport.

(** ** The body of a response and direct audit entries *)

Section BodiesAndEntries.

Local Open Scope list_scope.

Variable tr : nat -> request -> reply.
Variable now : nat -> string.


(** X18.  [security_log_entry] appends exactly one entry, marked data-safe,
    with the method as given.  The report's test for write attempts compares
    that method with the blocked list as written: an entry logged with POST,
    PUT, DELETE or PATCH makes the next security report count a write attempt
    and say NEEDS REVIEW, whatever else is in the log. *)
Theorem logged_write_attempt_needs_review :
  forall operation endpoint method ok details s w,
    str_in method WriteAccessAnalyzer.blocked_methods = true ->
    exists entry s' w1 rep w2,
      WriteAccessAnalyzer.security_log_entry now operation endpoint method ok
        details (s, w)
      = (Returned entry, (s', w1))
      /\ WriteAccessAnalyzer.security_log s'
         = WriteAccessAnalyzer.security_log s ++ [entry]
      /\ WriteAccessAnalyzer.method entry = method
      /\ WriteAccessAnalyzer.data_safe entry = true
      /\ net w1 = net w
      /\ WriteAccessAnalyzer.generate_security_report now (s', w1)
         = (Returned rep, (s', w2))
      /\ (1 <= WriteAccessAnalyzer.write_attempts_blocked rep)%nat
      /\ WriteAccessAnalyzer.safety_status rep = "NEEDS REVIEW".
Proof.
  intros operation endpoint method ok details s w Hb.
  unfold WriteAccessAnalyzer.security_log_entry,
    WriteAccessAnalyzer.generate_security_report,
    bind, datetime_now, set_self, logging_emit, get_self, ret.
  cbn [WriteAccessAnalyzer.security_log net ticks logged].
  do 5 eexists.
  split; [reflexivity |]. split; [reflexivity |]. split; [reflexivity |].
  split; [reflexivity |]. split; [reflexivity |]. split; [reflexivity |].
  cbn [WriteAccessAnalyzer.write_attempts_blocked
       WriteAccessAnalyzer.safety_status WriteAccessAnalyzer.security_log].
  rewrite forallb_app, filter_app, length_app. cbn [filter WriteAccessAnalyzer.method].
  rewrite Hb. cbn [List.length].
  split; [lia |].
  destruct (forallb _ _); cbn [andb]; [| reflexivity].
  destruct (Nat.eqb_spec
              (List.length
                 (filter (fun log =>
                            str_in (WriteAccessAnalyzer.method log)
                              WriteAccessAnalyzer.blocked_methods)
                    (WriteAccessAnalyzer.security_log s)) + 1) 0) as [H0 | _];
    [lia | reflexivity].
Qed.

End BodiesAndEntries.

(** Witness of X18: a DELETE entry on a new analyzer. *)
Lemma logged_write_attempt_witness :
  str_in "DELETE" WriteAccessAnalyzer.blocked_methods = true
  /\ exists entry st1 rep st2,
       WriteAccessAnalyzer.security_log_entry Gate.now_numbered "MANUAL"
         "/api/v1/visitor" "DELETE" false "refused"
         (WriteAccessAnalyzer.__init__ Gate.demo_key world0)
       = (Returned entry, st1)
       /\ WriteAccessAnalyzer.generate_security_report Gate.now_numbered st1
          = (Returned rep, st2)
       /\ WriteAccessAnalyzer.safety_status rep = "NEEDS REVIEW".
Proof.
  split; [reflexivity |].
  destruct (logged_write_attempt_needs_review Gate.now_numbered "MANUAL"
              "/api/v1/visitor" "DELETE" false "refused"
              (fst (WriteAccessAnalyzer.__init__ Gate.demo_key world0))
              (snd (WriteAccessAnalyzer.__init__ Gate.demo_key world0)) eq_refl)
    as (entry & s' & w1 & rep & w2 & He & _ & _ & _ & _ & Hr & _ & Hs).
  exists entry, (s', w1), rep, (s', w2).
  split; [exact He |]. split; [exact Hr | exact Hs].
Defined.

(** ** Witnesses *)

(** An investigator with four logged results, three of them successful, and
    a client whose two calls return nothing. *)
Lemma permission_table_witness :
  let i :=
    PendoAccessInvestigator.mkInvestigator Gate.demo_key "https://app.pendo.io"
      (Classify.run_of 3 4) in
  PendoAccessInvestigator.results i <> []
  /\ exists categories access_level,
       PendoAccessInvestigator.analyze_permissions (i, world0)
       = (Returned (categories, access_level), (i, world0))
       /\ Breakdown.lookup "Guides" categories
          = Some (PendoAccessInvestigator.mkStats 3 4).
Proof.
  intros i.
  assert (Hne : PendoAccessInvestigator.results i <> []) by discriminate.
  split; [exact Hne |].
  destruct (permission_table_counts_per_category i world0 Hne)
    as (categories & access_level & Heq & _ & Hl).
  exists categories, access_level. split; [exact Heq |].
  rewrite Hl. reflexivity.
Defined.

Lemma investigation_report_adds_up_witness :
  let i :=
    PendoAccessInvestigator.mkInvestigator Gate.demo_key "https://app.pendo.io"
      (Classify.run_of 3 4) in
  let client := fun w : world => (Returned PyNone, w) in
  PendoAccessInvestigator.results i <> []
  /\ exists r w',
       PendoAccessInvestigator.generate_investigation_report
         Gate.now_numbered client client (i, world0)
       = (Returned r, (i, w'))
       /\ Breakdown.sum_total (PendoAccessInvestigator.permission_breakdown r)
          = PendoAccessInvestigator.total_operations_tested r.
Proof.
  intros i client.
  assert (Hne : PendoAccessInvestigator.results i <> []) by discriminate.
  split; [exact Hne |].
  destruct (investigation_report_adds_up Gate.now_numbered client client
              i world0 Hne) as (r & w' & Heq & Ht & _).
  exists r, w'. split; [exact Heq | exact Ht].
Defined.

Lemma capabilities_summary_witness :
  let i :=
    PendoAccessInvestigator.mkInvestigator Gate.demo_key "https://app.pendo.io"
      (Classify.run_of 3 4) in
  let client := fun w : world => (Returned PyNone, w) in
  PendoAccessInvestigator.results i <> []
  /\ exists r w',
       PendoAccessInvestigator.generate_investigation_report
         Gate.now_numbered client client (i, world0)
       = (Returned r, (i, w'))
       /\ (PendoAccessInvestigator.read_access
             (PendoAccessInvestigator.capabilities_summary r)
           <= PendoAccessInvestigator.successful_operations r)%nat.
Proof.
  intros i client.
  assert (Hne : PendoAccessInvestigator.results i <> []) by discriminate.
  split; [exact Hne |].
  destruct (capabilities_summary_bounds Gate.now_numbered client client
              i world0 Hne) as (r & w' & Heq & Hr & _).
  exists r, w'. split; [exact Heq | exact Hr].
Defined.

Lemma access_level_follows_witness :
  let i :=
    PendoAccessInvestigator.mkInvestigator Gate.demo_key "https://app.pendo.io"
      (Classify.run_of 3 4) in
  PendoAccessInvestigator.results i <> []
  /\ exists l l_ok,
       Breakdown.level_of i = Some l
       /\ Breakdown.level_of
            (fst (snd (PendoAccessInvestigator.log_result Gate.now_numbered
                         "Guides" "List All Guides" true "" PyNone (i, world0))))
          = Some l_ok
       /\ (Breakdown.rank l <= Breakdown.rank l_ok)%nat.
Proof.
  intros i.
  assert (Hne : PendoAccessInvestigator.results i <> []) by discriminate.
  split; [exact Hne |].
  destruct (access_level_follows_new_results Gate.now_numbered i world0
              "Guides" "List All Guides" "" PyNone Hne)
    as (l & l_ok & l_fail & Hl & Hok & _ & _ & Hle).
  exists l, l_ok. split; [exact Hl |]. split; [exact Hok | exact Hle].
Defined.

(** An explorer with a pinned host on a network that is down. *)
Lemma followup_tests_abort_witness :
  let s :=
    RealPendoAPIExplorer.mkExplorer Gate.demo_key "" ["https://app.pendo.io"] []
      (Some "https://app.pendo.io") (Some []) in
  RealPendoAPIExplorer.working_base_url s = Some "https://app.pendo.io"
  /\ exists st',
       ExplorerRun.test_aggregation_api Gate.tr_down (s, world0)
       = (Raised (KeyError "status_code"), st').
Proof.
  intros s.
  assert (Hb : RealPendoAPIExplorer.working_base_url s
               = Some "https://app.pendo.io") by reflexivity.
  split; [exact Hb |].
  refine (proj1 (followup_tests_abort_on_transport_failure Gate.tr_down
                   Gate.now_numbered s world0 "https://app.pendo.io" Hb)
            0%nat "Connection refused" _ _ _).
  - lia.
  - intros n rq Hn. cbn in Hn. lia.
  - intros rq. reflexivity.
Defined.

(** A service that answers 404 to everything, and one that answers 200. *)
Lemma exploration_without_success_witness :
  let tr := fun (_ : nat) (_ : request) =>
              Responded (mkResponse 404 "Not Found" [] "" "" None) in
  ExplorerRun.always_refuses tr
  /\ exists rep st',
       ExplorerRun.run_complete_exploration tr Gate.now_numbered
         Gate.now_numbered (RealPendoAPIExplorer.__init__ Gate.demo_key, world0)
       = (Returned rep, st')
       /\ RealPendoAPIExplorer.successful_tests rep = 0%nat.
Proof.
  intros tr.
  assert (H : ExplorerRun.always_refuses tr).
  { intros n rq. eexists. split; [reflexivity | cbn; lia]. }
  split; [exact H |].
  destruct (exploration_without_success_only_probes tr Gate.now_numbered
              Gate.now_numbered Gate.demo_key world0 H)
    as (rep & s' & w' & Heq & _ & _ & _ & Hs & _).
  exists rep, (s', w'). split; [exact Heq | exact Hs].
Defined.

Lemma exploration_with_success_witness :
  let tr := fun (_ : nat) (_ : request) =>
              Responded (mkResponse 200 "OK" [] "" "" None) in
  ExplorerRun.always_succeeds tr
  /\ exists rep st',
       ExplorerRun.run_complete_exploration tr Gate.now_numbered
         Gate.now_numbered (RealPendoAPIExplorer.__init__ Gate.demo_key, world0)
       = (Returned rep, st')
       /\ RealPendoAPIExplorer.total_tests rep = 163%nat.
Proof.
  intros tr.
  assert (H : ExplorerRun.always_succeeds tr).
  { intros n rq. eexists. split; [reflexivity | cbn; lia]. }
  split; [exact H |].
  destruct (exploration_with_success_sends_posts tr Gate.now_numbered
              Gate.now_numbered Gate.demo_key world0 H)
    as (rep & s' & w' & Heq & _ & _ & Ht & _).
  exists rep, (s', w'). split; [exact Heq | exact Ht].
Defined.
